(** * Staffing optimisation: the model builder, the profit calculator and the
      solution interpreter of [project.py], with the entities of [entities/].

    Python integers are unbounded, so they are [Z], the positions produced by
    [enumerate] and [range] included; dictionaries are [gmap]s; exceptions are
    values of [exn] threaded through an error monad; what the program reads,
    prints and asks of the solving engine is recorded as a trace of events. *)

From Stdlib Require Import ZArith QArith Qabs Lqa String Ascii DecimalString Lia.
From stdpp Require Import base list gmap strings.

Local Open Scope string_scope.
Local Open Scope list_scope.
Local Open Scope Z_scope.

(** ** entities/employee.py, entities/job.py *)

Record Employee := mkEmployee {
  e_name : string;
  qualifications : list string;
  vacations : list Z
}.

Record Job := mkJob {
  j_name : string;
  gain : Z;
  due_date : Z;
  daily_penalty : Z;
  working_days_per_qualification : gmap string Z
}.

(** ** project.py: ProblemData *)

Record ProblemData := mkData {
  horizon : Z;
  d_qualifications : list string;
  staff : list Employee;
  jobs : list Job
}.

(** ** project.py: get_profit *)

Definition get_profit (project : Job) (end_date : Z) : Z :=
  if due_date project >=? end_date then gain project
  else Z.max (gain project - daily_penalty project * (end_date - due_date project)) 0.

(** The scenario job of the specification: gain 50, due on day 3, penalty 20 a day. *)
Definition scenario_job : Job := mkJob "scenario" 50 3 20 ∅.

(** A job whose gain is negative, and one whose penalty is negative; the
    fields are plain integers. *)
Definition losing_job : Job := mkJob "losing" (-5) 3 20 ∅.
Definition rewarding_job : Job := mkJob "rewarding" 10 3 (-1) ∅.

(** ** Exceptions, results and the effects of the program *)

Inductive pykey :=
| KStr (s : string)
| KTuple (idx : list Z).

Inductive exn :=
| ValueError (msg : string)
| KeyError (key : pykey)
| IndexError
| TypeError
| OSError (file : string)
| GurobiError (msg : string).

Inductive result (A : Type) : Type :=
| OK (a : A)
| Err (e : exn).
Arguments OK {A} a.
Arguments Err {A} e.

#[global] Instance result_ret : MRet result := fun _ a => OK a.
#[global] Instance result_bind : MBind result := fun _ _ f m =>
  match m with
  | OK a => f a
  | Err e => Err e
  end.

(** A generator expression with nested [for] clauses: the bodies run in
    iteration order and the first exception ends the iteration. *)
Fixpoint for_ {A B : Type} (l : list A) (body : A -> result (list B)) : result (list B) :=
  match l with
  | [] => OK []
  | x :: l' => ys ← body x; zs ← for_ l' body; OK (ys ++ zs)
  end.

Definition yield {B : Type} (b : B) : result (list B) := OK [b].

Definition enumerate {A : Type} (l : list A) : list (Z * A) :=
  imap (fun i x => (Z.of_nat i, x)) l.

Definition len {A : Type} (l : list A) : Z := Z.of_nat (length l).

Definition range (n : Z) : list Z := seqZ 0 n.

(** Python's [l[i]] on a list: negative positions count from the end. *)
Definition list_getitem {A : Type} (l : list A) (i : Z) : result A :=
  let pos := if 0 <=? i then i else Z.of_nat (length l) + i in
  if pos <? 0 then Err IndexError
  else match l !! Z.to_nat pos with
       | Some a => OK a
       | None => Err IndexError
       end.

(** Python's [s[i]] on a string, for a non-negative position. *)
Definition str_getitem (s : string) (i : nat) : result ascii :=
  match String.get i s with
  | Some c => OK c
  | None => Err IndexError
  end.

(** Python's [int] on a one-character string. *)
Definition int (c : ascii) : result Z :=
  match c with
  | "0"%char => OK 0
  | "1"%char => OK 1
  | "2"%char => OK 2
  | "3"%char => OK 3
  | "4"%char => OK 4
  | "5"%char => OK 5
  | "6"%char => OK 6
  | "7"%char => OK 7
  | "8"%char => OK 8
  | "9"%char => OK 9
  | _ => Err (ValueError ("invalid literal for int() with base 10: '" +:+ String c "'"))
  end.

(** Python's [str] on an integer. *)
Definition str (z : Z) : string := NilZero.string_of_int (Z.to_int z).

(** ** JSON values, as [json.load] returns them *)

#[local] Unset Elimination Schemes.
Inductive json :=
| JNull
| JBool (b : bool)
| JInt (z : Z)
| JStr (s : string)
| JList (l : list json)
| JDict (items : list (string * json)).
#[local] Set Elimination Schemes.

Fixpoint assoc (k : string) (items : list (string * json)) : option json :=
  match items with
  | [] => None
  | (k', v) :: rest => if String.eqb k k' then Some v else assoc k rest
  end.

(** [d[k]] on a parsed JSON value. *)
Definition getitem (d : json) (k : string) : result json :=
  match d with
  | JDict items =>
      match assoc k items with
      | Some v => OK v
      | None => Err (KeyError (KStr k))
      end
  | _ => Err TypeError
  end.

(** The entities declare the types of their fields; a JSON value of another
    type is rejected when the typed record is built. *)
Definition as_int (v : json) : result Z :=
  match v with JInt z => OK z | _ => Err TypeError end.

Definition as_str (v : json) : result string :=
  match v with JStr s => OK s | _ => Err TypeError end.

Definition as_list (v : json) : result (list json) :=
  match v with JList l => OK l | _ => Err TypeError end.

Definition as_items (v : json) : result (list (string * json)) :=
  match v with JDict items => OK items | _ => Err TypeError end.

Definition as_str_list (v : json) : result (list string) :=
  l ← as_list v; for_ l (fun x => s ← as_str x; yield s).

Definition as_int_list (v : json) : result (list Z) :=
  l ← as_list v; for_ l (fun x => z ← as_int x; yield z).

Definition as_int_dict (v : json) : result (gmap string Z) :=
  items ← as_items v;
  kvs ← for_ items (fun kv => z ← as_int kv.2; yield (kv.1, z));
  OK (list_to_map kvs).

(** ** The optimisation model handed to the solving engine *)

(** The decision variables: X[e, j, d], Y[e, j, q] and Z[j, d]. *)
Inductive Var :=
| VarX (e j d : Z)
| VarY (e j q : Z)
| VarZ (j d : Z).

(** Expressions built with [*], [quicksum] and integer coefficients. *)
Inductive expr :=
| Num (c : Z)
| Ref (v : Var)
| Add (a b : expr)
| Mul (a b : expr).

Inductive sense := LE | EQ | GE.

(** What [lhs <= rhs], [lhs == rhs] and [lhs >= rhs] build. *)
Record TempConstr := mkConstr { lhs : expr; rel : sense; rhs : expr }.

Notation "a [==] b" := (mkConstr a EQ b) (at level 70, no associativity).
Notation "a [<=] b" := (mkConstr a LE b) (at level 70, no associativity).
Notation "a [>=] b" := (mkConstr a GE b) (at level 70, no associativity).

Definition quicksum (terms : list expr) : expr := foldr Add (Num 0) terms.

(** The objects a constraint generator can yield or pass around: a
    constraint, a plain integer, and what [gurobipy.all_] and [gurobipy.and_]
    return for their arguments. *)
#[local] Unset Elimination Schemes.
Inductive pyobj :=
| OConstr (c : TempConstr)
| OInt (z : Z)
| all_ (args : list pyobj)
| and_ (args : list pyobj).
#[local] Set Elimination Schemes.

Record Model := mkModel {
  m_vars : list Var;
  m_objective : expr;
  m_constrs : list (string * TempConstr)
}.

Inductive Status := OPTIMAL | INFEASIBLE | UNBOUNDED | TIME_LIMIT.

(** What is read back after [model.optimize()]: [model.Status],
    [model.ObjVal] and [v.x] for every variable (floating-point numbers, each
    of which is a rational). *)
Record Solved := mkSolved {
  s_status : Status;
  s_objval : Q;
  s_x : Var -> Q
}.

(** The collaborators of the program that are not part of it: the files
    [json.load] reads, the truth value Python obtains for the object built by
    [gurobipy.and_] (or the exception raised on the way), and the engine
    behind [model.optimize]. *)
Class World := {
  load_json : string -> result json;
  cond_truth : pyobj -> result bool;
  optimize : Model -> Solved
}.

(** The lines [print] writes. *)
Inductive line :=
| LOptimal (objval : Q)
| LWorks (employee job : string) (day : Z)
| LAssigned (employee job qualification : string)
| LFinished (job : string) (day : Z)
| LObjective (objval : Q).

Inductive event :=
| EOpen (file : string)
| EOptimize
| EPrint (l : line).

(** A computation with effects: the events so far and how it ended. *)
Record io (A : Type) : Type := IO { trace : list event; outcome : result A }.
Arguments IO {A} trace outcome.
Arguments trace {A} i.
Arguments outcome {A} i.

#[global] Instance io_ret : MRet io := fun _ a => IO [] (OK a).
#[global] Instance io_bind : MBind io := fun _ _ f m =>
  match outcome m with
  | OK a => IO (trace m ++ trace (f a)) (outcome (f a))
  | Err e => IO (trace m) (Err e)
  end.

Definition lift {A : Type} (r : result A) : io A := IO [] r.
Definition emit (e : event) : io unit := IO [e] (OK tt).
Definition print (l : line) : io unit := emit (EPrint l).

(** ** project.py: get_data *)

Definition make_employee (employee : json) : result Employee :=
  name ← getitem employee "name" ≫= as_str;
  quals ← getitem employee "qualifications" ≫= as_str_list;
  vacs ← getitem employee "vacations" ≫= as_int_list;
  OK (mkEmployee name quals vacs).

Definition make_job (job : json) : result Job :=
  name ← getitem job "name" ≫= as_str;
  g ← getitem job "gain" ≫= as_int;
  due ← getitem job "due_date" ≫= as_int;
  pen ← getitem job "daily_penalty" ≫= as_int;
  wd ← getitem job "working_days_per_qualification" ≫= as_int_dict;
  OK (mkJob name g due pen wd).

(** [ProblemData] is a typed dictionary: its declared fields are read, with
    their declared types, when the typed record is returned. *)
Definition get_data `{World} (size : string) : io ProblemData :=
  file ← lift (if String.eqb size "small" then OK "data/toy_instance.json"
               else if String.eqb size "medium" then OK "data/medium_instance.json"
               else if String.eqb size "large" then OK "data/large_instance.json"
               else Err (ValueError ("Unknown size " +:+ size)));
  _ ← emit (EOpen file);
  data ← lift (load_json file);
  lift (
    raw_staff ← getitem data "staff" ≫= as_list;
    staff' ← for_ (enumerate raw_staff) (fun '(index, employee) =>
                e ← make_employee employee; yield e);
    raw_jobs ← getitem data "jobs" ≫= as_list;
    jobs' ← for_ (enumerate raw_jobs) (fun '(index, job) =>
                j ← make_job job; yield j);
    h ← getitem data "horizon" ≫= as_int;
    quals ← getitem data "qualifications" ≫= as_str_list;
    OK (mkData h quals staff' jobs')).

(** ** project.py: solve_problem, up to [model.optimize()] *)

(** [model.addVars(n1, n2, n3, name=...)] and [model.addVars(n1, n2, name=...)]:
    one variable for every tuple of range(n1) x range(n2) (x range(n3)), in
    that order, in a dictionary keyed by the tuple. *)
Definition keys3 (n1 n2 n3 : Z) : list (Z * Z * Z) :=
  a ← range n1; b ← range n2; c ← range n3; [(a, b, c)].

Definition keys2 (n1 n2 : Z) : list (Z * Z) :=
  a ← range n1; b ← range n2; [(a, b)].

Definition var3 (mk : Z -> Z -> Z -> Var) (k : Z * Z * Z) : Var := mk k.1.1 k.1.2 k.2.
Definition var2 (mk : Z -> Z -> Var) (k : Z * Z) : Var := mk k.1 k.2.

Definition addVars3 (n1 n2 n3 : Z) (mk : Z -> Z -> Z -> Var) : gmap (Z * Z * Z) Var :=
  list_to_map ((fun k => (k, var3 mk k)) <$> keys3 n1 n2 n3).

Definition addVars2 (n1 n2 : Z) (mk : Z -> Z -> Var) : gmap (Z * Z) Var :=
  list_to_map ((fun k => (k, var2 mk k)) <$> keys2 n1 n2).

(** [t[a, b, c]] and [t[a, b]] on such a dictionary. *)
Definition item3 (t : gmap (Z * Z * Z) Var) (a b c : Z) : result expr :=
  match t !! (a, b, c) with
  | Some v => OK (Ref v)
  | None => Err (KeyError (KTuple [a; b; c]))
  end.

Definition item2 (t : gmap (Z * Z) Var) (a b : Z) : result expr :=
  match t !! (a, b) with
  | Some v => OK (Ref v)
  | None => Err (KeyError (KTuple [a; b]))
  end.

Definition dict_item (t : gmap (Z * Z) Z) (a b : Z) : result Z :=
  match t !! (a, b) with
  | Some p => OK p
  | None => Err (KeyError (KTuple [a; b]))
  end.

(** [model.addConstr] on one yielded object: only a constraint can be added. *)
Definition addConstr (name : string) (item : pyobj) : result (list (string * TempConstr)) :=
  match item with
  | OConstr c => OK [(name, c)]
  | _ => Err (GurobiError "not a constraint")
  end.

Definition profits_jobs_of (data : ProblemData) : gmap (Z * Z) Z :=
  list_to_map ('(job_index, job) ← enumerate (jobs data);
               day ← range (horizon data);
               [((job_index, day), get_profit job day)]).

Definition objective_of (data : ProblemData) (profits_jobs : gmap (Z * Z) Z)
    (Z_ : gmap (Z * Z) Var) : result expr :=
  terms ← for_ (enumerate (jobs data)) (fun '(job_index, _) =>
             for_ (range (horizon data)) (fun day =>
               p ← dict_item profits_jobs job_index day;
               z ← item2 Z_ job_index day;
               yield (Mul (Num p) z)));
  OK (quicksum terms).

Definition realized_name : string :=
  "Project is realized when each qualification has been staffed the right number of days".

Section constraints.
Context `{World}.
Variable data : ProblemData.
Variable X Y : gmap (Z * Z * Z) Var.
Variable Z_ : gmap (Z * Z) Var.

(* Constraint 1 *)
Definition constr_need_qualification : result (list (string * TempConstr)) :=
  for_ (enumerate (staff data)) (fun '(employee_index, employee) =>
    for_ (enumerate (jobs data)) (fun '(job_index, _) =>
      for_ (enumerate (d_qualifications data)) (fun '(qualification_index, qualification) =>
        if bool_decide (qualification ∉ qualifications employee) then
          y ← item3 Y employee_index job_index qualification_index;
          addConstr "Need to have qualification to work on a job" (OConstr (y [==] Num 0))
        else OK []))).

(* Constraint 2 *)
Definition constr_one_qualification : result (list (string * TempConstr)) :=
  for_ (enumerate (staff data)) (fun '(employee_index, _) =>
    for_ (enumerate (jobs data)) (fun '(job_index, _) =>
      ys ← for_ (enumerate (d_qualifications data)) (fun '(qualification_index, _) =>
              y ← item3 Y employee_index job_index qualification_index; yield y);
      addConstr "One qualification per employee per job" (OConstr (quicksum ys [<=] Num 1)))).

(* Constraint 3 *)
Definition constr_one_job_per_day : result (list (string * TempConstr)) :=
  for_ (enumerate (staff data)) (fun '(employee_index, _) =>
    for_ (range (horizon data)) (fun day =>
      xs ← for_ (enumerate (jobs data)) (fun '(job_index, _) =>
              x ← item3 X employee_index job_index day; yield x);
      addConstr "One job per employee per day" (OConstr (quicksum xs [<=] Num 1)))).

(* Constraint 4; the source adds this group twice *)
Definition constr_no_work_on_vacation : result (list (string * TempConstr)) :=
  for_ (enumerate (staff data)) (fun '(employee_index, employee) =>
    for_ (enumerate (jobs data)) (fun '(job_index, _) =>
      for_ (vacations employee) (fun day =>
        x ← item3 X employee_index job_index day;
        addConstr "No work on vacation" (OConstr (x [==] Num 0))))).

(* Constraint 5: [Z[job_index, day] == 1 if gurobipy.and_(...) else 0] *)
Definition realized_condition (job_index : Z) (job : Job) (day : Z) : result pyobj :=
  staffed ← for_ (enumerate (d_qualifications data)) (fun '(qualification_index, qualification) =>
               terms ← for_ (enumerate (staff data)) (fun '(employee_index, _) =>
                          for_ (range (day + 1)) (fun day_2 =>
                            y ← item3 Y employee_index job_index qualification_index;
                            x ← item3 X employee_index job_index day_2;
                            yield (Mul y x)));
               yield (OConstr (quicksum terms [==]
                               Num (default 0 (working_days_per_qualification job !! qualification)))));
  xs ← for_ (enumerate (staff data)) (fun '(employee_index, _) =>
          x ← item3 X employee_index job_index day; yield x);
  OK (and_ [all_ staffed; OConstr (quicksum xs [>=] Num 1)]).

Definition constr_realized : result (list (string * TempConstr)) :=
  for_ (enumerate (jobs data)) (fun '(job_index, job) =>
    for_ (range (horizon data)) (fun day =>
      cond ← realized_condition job_index job day;
      b ← cond_truth cond;
      item ← (if b : bool then z ← item2 Z_ job_index day; OK (OConstr (z [==] Num 1))
              else OK (OInt 0));
      addConstr realized_name item)).

(* Constraint 6 *)
Definition constr_realized_once : result (list (string * TempConstr)) :=
  for_ (enumerate (jobs data)) (fun '(job_index, _) =>
    zs ← for_ (range (horizon data)) (fun day => z ← item2 Z_ job_index day; yield z);
    addConstr "A job can only be realized once" (OConstr (quicksum zs [==] Num 1))).

Definition constr_assigned_works : result (list (string * TempConstr)) :=
  for_ (enumerate (staff data)) (fun '(employee_index, _) =>
    for_ (enumerate (jobs data)) (fun '(job_index, _) =>
      for_ (enumerate (d_qualifications data)) (fun '(qualification_index, qualification) =>
        xs ← for_ (range (horizon data)) (fun day =>
                x ← item3 X employee_index job_index day; yield x);
        y ← item3 Y employee_index job_index qualification_index;
        addConstr "If an employee is assigned to a job for a qualification, he must work for this job at least one day"
                  (OConstr (quicksum xs [>=] y))))).

Definition constr_staffed_days : result (list (string * TempConstr)) :=
  for_ (enumerate (jobs data)) (fun '(job_index, job) =>
    for_ (enumerate (d_qualifications data)) (fun '(qualification_index, qualification) =>
      terms ← for_ (enumerate (staff data)) (fun '(employee_index, _) =>
                 for_ (range (horizon data)) (fun day =>
                   x ← item3 X employee_index job_index day;
                   y ← item3 Y employee_index job_index qualification_index;
                   yield (Mul x y)));
      addConstr "Staffed days of qualification <= number of days of work of the qualification"
                (OConstr (quicksum terms [<=]
                          Num (default 0 (working_days_per_qualification job !! qualification)))))).
End constraints.

(** Everything [solve_problem] does before [model.optimize()]. *)
Definition build_model `{World} (data : ProblemData) : result Model :=
  let profits_jobs := profits_jobs_of data in
  let n_staff := len (staff data) in
  let n_jobs := len (jobs data) in
  let n_quals := len (d_qualifications data) in
  let X := addVars3 n_staff n_jobs (horizon data) VarX in
  let Y := addVars3 n_staff n_jobs n_quals VarY in
  let Z_ := addVars2 n_jobs (horizon data) VarZ in
  let vars := (var3 VarX <$> keys3 n_staff n_jobs (horizon data)) ++
              (var3 VarY <$> keys3 n_staff n_jobs n_quals) ++
              (var2 VarZ <$> keys2 n_jobs (horizon data)) in
  obj ← objective_of data profits_jobs Z_;
  c1 ← constr_need_qualification data Y;
  c2 ← constr_one_qualification data Y;
  c3 ← constr_one_job_per_day data X;
  c4 ← constr_no_work_on_vacation data X;
  c4' ← constr_no_work_on_vacation data X;
  c5 ← constr_realized data X Y Z_;
  c6 ← constr_realized_once data Z_;
  c7 ← constr_assigned_works data X Y;
  c8 ← constr_staffed_days data X Y;
  OK (mkModel vars obj (c1 ++ c2 ++ c3 ++ c4 ++ c4' ++ c5 ++ c6 ++ c7 ++ c8)).

(** ** project.py: solve_problem, after [model.optimize()] *)

(** The name gurobipy gives a variable created by [addVars(..., name="X")]:
    the name followed by the index tuple, as in [X[0,1,2]]. *)
Definition varName (v : Var) : string :=
  match v with
  | VarX e j d => "X[" +:+ str e +:+ "," +:+ str j +:+ "," +:+ str d +:+ "]"
  | VarY e j q => "Y[" +:+ str e +:+ "," +:+ str j +:+ "," +:+ str q +:+ "]"
  | VarZ j d => "Z[" +:+ str j +:+ "," +:+ str d +:+ "]"
  end.

(** [int(v.varName[i])] *)
Definition index_at (name : string) (i : nat) : result Z :=
  c ← str_getitem name i; int c.

(** The body of [for v in model.getVars()], for a variable whose solved value is [x]. *)
Definition report_var (data : ProblemData) (v : Var) (x : Q) : io unit :=
  if Qeq_bool x 1 then
    c0 ← lift (str_getitem (varName v) 0);
    if Ascii.eqb c0 "X" then
      employee ← lift (index_at (varName v) 2 ≫= list_getitem (staff data));
      job ← lift (index_at (varName v) 4 ≫= list_getitem (jobs data));
      day ← lift (index_at (varName v) 6);
      print (LWorks (e_name employee) (j_name job) day)
    else if Ascii.eqb c0 "Y" then
      employee ← lift (index_at (varName v) 2 ≫= list_getitem (staff data));
      job ← lift (index_at (varName v) 4 ≫= list_getitem (jobs data));
      qualification ← lift (index_at (varName v) 6 ≫= list_getitem (d_qualifications data));
      print (LAssigned (e_name employee) (j_name job) qualification)
    else if Ascii.eqb c0 "Z" then
      job ← lift (index_at (varName v) 2 ≫= list_getitem (jobs data));
      day ← lift (index_at (varName v) 4);
      print (LFinished (j_name job) day)
    else mret tt
  else mret tt.

Fixpoint for_each {A : Type} (l : list A) (body : A -> io unit) : io unit :=
  match l with
  | [] => mret tt
  | a :: l' => _ ← body a; for_each l' body
  end.

Definition report (data : ProblemData) (model : Model) (sol : Solved) : io unit :=
  match s_status sol with
  | OPTIMAL =>
      _ ← print (LOptimal (s_objval sol));
      _ ← for_each (m_vars model) (fun v => report_var data v (s_x sol v));
      print (LObjective (s_objval sol))
  | _ => mret tt
  end.

Definition solve_problem `{World} (data : ProblemData) : io Model :=
  model ← lift (build_model data);
  _ ← emit EOptimize;
  _ ← report data model (optimize model);
  mret model.

Definition main `{World} : io unit :=
  data ← get_data "small";
  _ ← solve_problem data;
  mret tt.

(** ** Solutions of a model *)

Fixpoint eval (s : Var -> Z) (e : expr) : Z :=
  match e with
  | Num c => c
  | Ref v => s v
  | Add a b => eval s a + eval s b
  | Mul a b => eval s a * eval s b
  end.

Definition holdsb (s : Var -> Z) (c : TempConstr) : bool :=
  match rel c with
  | LE => eval s (lhs c) <=? eval s (rhs c)
  | EQ => eval s (lhs c) =? eval s (rhs c)
  | GE => eval s (lhs c) >=? eval s (rhs c)
  end.

Definition binaryb (s : Var -> Z) (v : Var) : bool := (s v =? 0) || (s v =? 1).

Definition holds (s : Var -> Z) (c : TempConstr) : Prop := holdsb s c = true.
Definition binary (s : Var -> Z) (v : Var) : Prop := s v = 0 \/ s v = 1.

(** A solution is feasible when every variable is 0 or 1 (they are created
    with [vtype=BINARY]) and every constraint of the model holds. *)
Definition feasible (m : Model) (s : Var -> Z) : Prop :=
  Forall (binary s) (m_vars m) /\ Forall (fun nc => holds s nc.2) (m_constrs m).

Definition feasibleb (m : Model) (s : Var -> Z) : bool :=
  forallb (binaryb s) (m_vars m) && forallb (fun nc => holdsb s nc.2) (m_constrs m).

(** Sum of a solution over a list of days or indices. *)
Definition sum_over {A : Type} (f : A -> Z) (l : list A) : Z := foldr (fun a acc => f a + acc) 0 l.

(** The completion condition in the words of the specification: through day
    [d] every qualification has accumulated exactly the required employee-days
    of qualified work on job [j], and somebody works job [j] on day [d]. *)
Definition staffed_through (data : ProblemData) (s : Var -> Z) (j q d : Z) : Z :=
  sum_over (fun e => sum_over (fun d' => s (VarY e j q) * s (VarX e j d')) (range (d + 1)))
           (range (len (staff data))).

Definition completion_condition_spec (data : ProblemData) (s : Var -> Z)
    (j : Z) (job : Job) (d : Z) : Prop :=
  (forall (q : nat) (qualification : string),
      d_qualifications data !! q = Some qualification ->
      staffed_through data s j (Z.of_nat q) d =
      default 0 (working_days_per_qualification job !! qualification)) /\
  1 <= sum_over (fun e => s (VarX e j d)) (range (len (staff data))).

(** The fact a variable stands for, with its own indices. *)
Definition fact_of (data : ProblemData) (v : Var) : option line :=
  match v with
  | VarX e j d =>
      employee ← staff data !! Z.to_nat e; job ← jobs data !! Z.to_nat j;
      Some (LWorks (e_name employee) (j_name job) d)
  | VarY e j q =>
      employee ← staff data !! Z.to_nat e; job ← jobs data !! Z.to_nat j;
      qualification ← d_qualifications data !! Z.to_nat q;
      Some (LAssigned (e_name employee) (j_name job) qualification)
  | VarZ j d =>
      job ← jobs data !! Z.to_nat j;
      Some (LFinished (j_name job) d)
  end.

Definition true_facts (data : ProblemData) (vars : list Var) (x : Var -> Q) : list line :=
  omap (fun v => if Qeq_bool (x v) 1 then fact_of data v else None) vars.

(** ** Concrete instances *)

Definition solved_with (x : Var -> Z) (objval : Z) : Solved :=
  mkSolved OPTIMAL (inject_Z objval) (fun v => inject_Z (x v)).

(** A world without input files in which the condition object of constraint 5
    is true, as a Python object is unless its class says otherwise, and in
    which the engine answers [sol]. *)
Definition truthy_world (sol : Solved) : World :=
  {| load_json := fun file => Err (OSError file);
     cond_truth := fun _ => OK true;
     optimize := fun _ => sol |}.

(** The same world, had the condition object been false. *)
Definition falsy_world (sol : Solved) : World :=
  {| load_json := fun file => Err (OSError file);
     cond_truth := fun _ => OK false;
     optimize := fun _ => sol |}.

Definition world_answering (x : Var -> Z) (objval : Z) : World :=
  truthy_world (solved_with x objval).

Definition job_A : Job := mkJob "J" 100 5 10 {[ "A" := 1 ]}.

(** One employee, one job that needs one day of qualification A, one day. *)
Definition solo_data : ProblemData :=
  mkData 1 ["A"] [mkEmployee "Ann" ["A"] []] [job_A].

(** Nobody works, nobody is assigned, yet the job is complete on day 0. *)
Definition idle_solution (v : Var) : Z :=
  match v with
  | VarZ 0 0 => 1
  | _ => 0
  end.

(** The same instance with horizon 2. *)
Definition two_day_data : ProblemData :=
  mkData 2 ["A"] [mkEmployee "Ann" ["A"] []] [job_A].

(** The employee is on vacation on the only day. *)
Definition vacation_data : ProblemData :=
  mkData 1 ["A"] [mkEmployee "Ann" ["A"] [0]] [job_A].

(** The engine's answer for a model without variables. *)
Definition empty_solution (v : Var) : Z := 0.

(** A vacation day beyond the horizon, with one job and with none. *)
Definition late_vacation_data : ProblemData :=
  mkData 1 ["A"] [mkEmployee "Ann" ["A"] [5]] [job_A].

Definition no_jobs_data : ProblemData :=
  mkData 1 ["A"] [mkEmployee "Ann" ["A"] [5]] [].

(** Eleven qualifications; the job needs one day of the last one. *)
Definition eleven_quals : list string :=
  ["Q0"; "Q1"; "Q2"; "Q3"; "Q4"; "Q5"; "Q6"; "Q7"; "Q8"; "Q9"; "Q10"].

Definition many_quals_data : ProblemData :=
  mkData 1 eleven_quals [mkEmployee "Ann" eleven_quals []]
         [mkJob "J" 100 5 10 {[ "Q10" := 1 ]}].

Definition many_quals_solution (v : Var) : Z :=
  match v with
  | VarX 0 0 0 => 1
  | VarY 0 0 10 => 1
  | VarZ 0 0 => 1
  | _ => 0
  end.

(** Eleven employees; the last one does the job. *)
Definition crowd_data : ProblemData :=
  mkData 1 ["A"]
         ((fun n => mkEmployee n ["A"] []) <$>
          ["E0"; "E1"; "E2"; "E3"; "E4"; "E5"; "E6"; "E7"; "E8"; "E9"; "E10"])
         [job_A].

Definition crowd_solution (v : Var) : Z :=
  match v with
  | VarX 10 0 0 => 1
  | VarY 10 0 0 => 1
  | VarZ 0 0 => 1
  | _ => 0
  end.

Definition idle_world : World := world_answering idle_solution 100.
Definition empty_world : World := world_answering empty_solution 0.
Definition many_quals_world : World := world_answering many_quals_solution 100.
Definition crowd_world : World := world_answering crowd_solution 100.


(** ** Auxiliary predicates of the proofs *)

(** A result that is a value, or an exception satisfying [P]. *)
Definition ok_or {A : Type} (P : exn -> Prop) (r : result A) : Prop :=
  (exists a, r = OK a) \/ (exists e, r = Err e /\ P e).

(** The [KeyError] of a lookup [X[i, j, d]] whose day is outside the horizon. *)
Definition bad_day (data : ProblemData) (e : exn) : Prop :=
  exists i j d, e = KeyError (KTuple [i; j; d]) /\ ~ (0 <= d < horizon data).

(** Every index of the variable is a single decimal digit. *)
Definition single_digit (v : Var) : Prop :=
  match v with
  | VarX e j d => 0 <= e <= 9 /\ 0 <= j <= 9 /\ 0 <= d <= 9
  | VarY e j q => 0 <= e <= 9 /\ 0 <= j <= 9 /\ 0 <= q <= 9
  | VarZ j d => 0 <= j <= 9 /\ 0 <= d <= 9
  end.

(** ** Further instances and descriptions used by the proofs *)

(** Two qualifications, of which the only employee holds the first. *)
Definition two_quals_data : ProblemData :=
  mkData 1 ["A"; "B"] [mkEmployee "Ann" ["A"] []] [job_A].

(** A world in which the engine finds the model infeasible. *)
Definition infeasible_world : World :=
  truthy_world (mkSolved INFEASIBLE 0 (fun _ => 0%Q)).

(** Whether the decimal form of [z] has two characters, the first of which
    [int] reads as the tens of [z]. *)
Definition tens_first (z : Z) : bool :=
  match str z with
  | String c1 (String c2 EmptyString) =>
      match int c1 with
      | OK t => t =? z / 10
      | Err _ => false
      end
  | _ => false
  end.

(** The JSON document of a problem instance, in the layout [get_data] reads. *)
Definition json_of_employee (e : Employee) : json :=
  JDict [("name", JStr (e_name e));
         ("qualifications", JList (JStr <$> qualifications e));
         ("vacations", JList (JInt <$> vacations e))].

Definition json_of_job (j : Job) : json :=
  JDict [("name", JStr (j_name j));
         ("gain", JInt (gain j));
         ("due_date", JInt (due_date j));
         ("daily_penalty", JInt (daily_penalty j));
         ("working_days_per_qualification",
          JDict ((fun kv => (kv.1, JInt kv.2)) <$>
                 map_to_list (working_days_per_qualification j)))].

Definition json_of_data (d : ProblemData) : json :=
  JDict [("horizon", JInt (horizon d));
         ("qualifications", JList (JStr <$> d_qualifications d));
         ("staff", JList (json_of_employee <$> staff d));
         ("jobs", JList (json_of_job <$> jobs d))].

(** The file behind each known selector. *)
Definition file_of_size (size : string) : option string :=
  if String.eqb size "small" then Some "data/toy_instance.json"
  else if String.eqb size "medium" then Some "data/medium_instance.json"
  else if String.eqb size "large" then Some "data/large_instance.json"
  else None.

(** A world whose three files all hold the document [doc]. *)
Definition file_world (doc : json) (sol : Solved) : World :=
  {| load_json := fun _ => OK doc;
     cond_truth := fun _ => OK true;
     optimize := fun _ => sol |}.

(** What [get_data] makes of the loaded document, after the file is read. *)
Definition instance_of_document (data : json) : result ProblemData :=
  raw_staff ← getitem data "staff" ≫= as_list;
  staff' ← for_ (enumerate raw_staff) (fun '(index, employee) =>
              e ← make_employee employee; yield e);
  raw_jobs ← getitem data "jobs" ≫= as_list;
  jobs' ← for_ (enumerate raw_jobs) (fun '(index, job) =>
              j ← make_job job; yield j);
  h ← getitem data "horizon" ≫= as_int;
  quals ← getitem data "qualifications" ≫= as_str_list;
  OK (mkData h quals staff' jobs').

(** * Profit calculator *)

Lemma get_profit_on_time project end_date :
  end_date <= due_date project -> get_profit project end_date = gain project.
Proof.
  intros Hle. unfold get_profit.
  destruct (Z.geb_spec (due_date project) end_date); [reflexivity | lia].
Qed.

Lemma get_profit_late project end_date :
  due_date project < end_date ->
  get_profit project end_date =
  Z.max (gain project - daily_penalty project * (end_date - due_date project)) 0.
Proof.
  intros Hlt. unfold get_profit.
  destruct (Z.geb_spec (due_date project) end_date); [lia | reflexivity].
Qed.

(** C3: get_profit returns the gain when the completion day is at most the due
    date and max(gain - daily_penalty * (completion_day - due_date), 0)
    otherwise; the scenario job completed on day 5 is credited 10. *)
Theorem get_profit_cases :
  forall (project : Job) (end_date : Z),
    (end_date <= due_date project -> get_profit project end_date = gain project) /\
    (due_date project < end_date ->
     get_profit project end_date =
     Z.max (gain project - daily_penalty project * (end_date - due_date project)) 0) /\
    get_profit scenario_job 5 = 10.
Proof.
  intros project end_date. split; [|split].
  - apply get_profit_on_time.
  - apply get_profit_late.
  - reflexivity.
Qed.

Lemma get_profit_cases_witness :
  get_profit scenario_job 2 = 50 /\ get_profit scenario_job 4 = 30.
Proof.
  split.
  - apply (proj1 (get_profit_cases scenario_job 2)). simpl. lia.
  - apply (proj1 (proj2 (get_profit_cases scenario_job 4))). simpl. lia.
Defined.

(** C6 as stated fails.  For a job of negative gain the profit on the due
    date (k = 0) is the gain itself, not max(gain, 0), and it rises to 0 the
    day after; for a job of negative penalty the profit rises with k. *)
Lemma get_profit_due_date_not_floored :
  ~ (forall (project : Job) (k : Z), 0 <= k ->
       get_profit project (due_date project + k) =
       Z.max (gain project - daily_penalty project * k) 0) /\
  ~ (forall (project : Job) (k k' : Z), 0 <= k -> k <= k' ->
       get_profit project (due_date project + k') <=
       get_profit project (due_date project + k)) /\
  get_profit losing_job (3 + 0) = -5 /\
  get_profit losing_job (3 + 1) = 0 /\
  get_profit rewarding_job (3 + 0) = 10 /\
  get_profit rewarding_job (3 + 1) = 11.
Proof.
  split; [|split; [|repeat split]].
  - intros H. specialize (H losing_job 0 ltac:(lia)). vm_compute in H. discriminate H.
  - intros H. specialize (H rewarding_job 0 1 ltac:(lia) ltac:(lia)).
    vm_compute in H. apply H. reflexivity.
Qed.

(** C6, amended: profit on the due date is the gain; k >= 1 days late it is
    max(gain - penalty * k, 0), hence never negative; for a job of
    non-negative gain the formula also holds at k = 0, and with a non-negative
    penalty as well the profit is non-increasing in k. *)
Theorem get_profit_past_due :
  forall (project : Job),
    get_profit project (due_date project) = gain project /\
    (forall k, 1 <= k ->
       get_profit project (due_date project + k) =
       Z.max (gain project - daily_penalty project * k) 0 /\
       0 <= get_profit project (due_date project + k)) /\
    (0 <= gain project ->
     forall k, 0 <= k ->
       get_profit project (due_date project + k) =
       Z.max (gain project - daily_penalty project * k) 0) /\
    (0 <= gain project -> 0 <= daily_penalty project ->
     forall k k', 0 <= k -> k <= k' ->
       get_profit project (due_date project + k') <=
       get_profit project (due_date project + k)).
Proof.
  intros project.
  assert (Hlate : forall k, 1 <= k ->
            get_profit project (due_date project + k) =
            Z.max (gain project - daily_penalty project * k) 0).
  { intros k Hk. rewrite get_profit_late by lia. f_equal. f_equal. f_equal. lia. }
  assert (Hdue : get_profit project (due_date project) = gain project).
  { apply get_profit_on_time. lia. }
  assert (Hall : 0 <= gain project -> forall k, 0 <= k ->
            get_profit project (due_date project + k) =
            Z.max (gain project - daily_penalty project * k) 0).
  { intros Hg k Hk. destruct (Z.eq_dec k 0) as [-> | Hne].
    - rewrite Z.add_0_r, Hdue. lia.
    - apply Hlate. lia. }
  split; [exact Hdue|]. split; [|split].
  - intros k Hk. rewrite Hlate by exact Hk. split; [reflexivity | lia].
  - exact Hall.
  - intros Hg Hp k k' Hk Hkk'. rewrite !Hall by lia. nia.
Qed.

Lemma get_profit_past_due_witness :
  get_profit scenario_job (3 + 2) = 10 /\
  get_profit scenario_job (3 + 0) = 50 /\
  get_profit scenario_job (3 + 4) <= get_profit scenario_job (3 + 1).
Proof.
  destruct (get_profit_past_due scenario_job) as (_ & Hlate & Hzero & Hmono).
  split; [|split].
  - apply (proj1 (Hlate 2 ltac:(lia))).
  - apply (Hzero ltac:(simpl; lia) 0 ltac:(lia)).
  - apply (Hmono ltac:(simpl; lia) ltac:(simpl; lia) 1 4); lia.
Defined.

(** C7 as stated fails: a job of negative gain completed by its due date is
    credited its negative gain. *)
Lemma get_profit_negative :
  get_profit losing_job 0 = -5 /\
  ~ (forall project end_date, 0 <= get_profit project end_date).
Proof.
  split; [reflexivity|].
  intros H. specialize (H losing_job 0). vm_compute in H. apply H. reflexivity.
Qed.

(** C7, amended: the profit is non-negative for every completion day when the
    gain is non-negative, and for every job when the completion day is past
    the due date. *)
Theorem get_profit_nonneg :
  forall (project : Job) (end_date : Z),
    0 <= gain project \/ due_date project < end_date ->
    0 <= get_profit project end_date.
Proof.
  intros project end_date H. unfold get_profit.
  destruct (Z.geb_spec (due_date project) end_date); lia.
Qed.

Lemma get_profit_nonneg_witness :
  0 <= get_profit scenario_job 5 /\ 0 <= get_profit losing_job 4.
Proof.
  split.
  - apply (get_profit_nonneg scenario_job 5). left. simpl. lia.
  - apply (get_profit_nonneg losing_job 4). right. simpl. lia.
Defined.

(** * Dataset selection *)

(** C8: for every selector other than "small", "medium" and "large", get_data
    raises ValueError naming the unknown size; no file is opened and no
    entity is built. *)
Theorem get_data_unknown_size `{World} (size : string) :
  size <> "small" -> size <> "medium" -> size <> "large" ->
  get_data size = IO [] (Err (ValueError ("Unknown size " +:+ size))).
Proof.
  intros Hs Hm Hl. unfold get_data.
  apply String.eqb_neq in Hs, Hm, Hl. rewrite Hs, Hm, Hl. reflexivity.
Qed.

Lemma get_data_unknown_size_witness :
  @get_data idle_world "huge" = IO [] (Err (ValueError "Unknown size huge")).
Proof.
  apply (@get_data_unknown_size idle_world "huge"); discriminate.
Defined.

(** The three known selectors open their file before anything else. *)
Lemma get_data_known_size_opens `{World} (size file : string) :
  (size, file) ∈ [("small", "data/toy_instance.json");
                  ("medium", "data/medium_instance.json");
                  ("large", "data/large_instance.json")] ->
  exists rest, trace (get_data size) = EOpen file :: rest.
Proof.
  intros Hin. repeat (apply elem_of_cons in Hin as [Heq | Hin]; [injection Heq as -> ->|]);
    [| | |inversion Hin]; unfold get_data; cbn;
    destruct (load_json _) as [data|e]; cbn; eauto;
    match goal with |- context [lift ?r] => destruct r; cbn; eauto end.
Qed.

(** * Generators and the error monad *)

Lemma bind_OK {A B} (m : result A) (f : A -> result B) b :
  m ≫= f = OK b -> exists a, m = OK a /\ f a = OK b.
Proof. destruct m as [a|e]; simpl; [eauto | discriminate]. Qed.

Lemma for_OK_elem {A B} (l : list A) (body : A -> result (list B)) r x :
  for_ l body = OK r -> x ∈ l -> exists ys, body x = OK ys /\ ys ⊆ r.
Proof.
  revert r. induction l as [|a l IH]; intros r Hr Hx.
  - inversion Hx.
  - simpl in Hr. apply bind_OK in Hr as (ys & Hys & Hr).
    apply bind_OK in Hr as (zs & Hzs & Hr). injection Hr as <-.
    apply elem_of_cons in Hx as [-> | Hx].
    + exists ys. split; [done|]. intros y Hy. apply elem_of_app. by left.
    + destruct (IH zs Hzs Hx) as (ys' & Hb & Hsub). exists ys'. split; [done|].
      intros y Hy. apply elem_of_app. right. by apply Hsub.
Qed.

Lemma for_OK_inv {A B} (l : list A) (body : A -> result (list B)) r y :
  for_ l body = OK r -> y ∈ r -> exists x ys, x ∈ l /\ body x = OK ys /\ y ∈ ys.
Proof.
  revert r. induction l as [|a l IH]; intros r Hr Hy.
  - injection Hr as <-. inversion Hy.
  - simpl in Hr. apply bind_OK in Hr as (ys & Hys & Hr).
    apply bind_OK in Hr as (zs & Hzs & Hr). injection Hr as <-.
    apply elem_of_app in Hy as [Hy | Hy].
    + exists a, ys. split; [left|done].
    + destruct (IH zs Hzs Hy) as (x & ys' & Hx & Hb & Hy'). exists x, ys'.
      split; [by right|done].
Qed.

Lemma for_total {A B} (l : list A) (body : A -> result (list B)) :
  (forall x, x ∈ l -> exists ys, body x = OK ys) -> exists r, for_ l body = OK r.
Proof.
  induction l as [|a l IH]; intros Hb.
  - by exists [].
  - destruct (Hb a) as [ys Hys]; [left|].
    destruct IH as [zs Hzs]; [intros x Hx; apply Hb; by right|].
    exists (ys ++ zs). simpl. by rewrite Hys, Hzs.
Qed.

Lemma for_ext_map {A B} (l : list A) (body : A -> result (list B)) (g : A -> list B) :
  (forall x, x ∈ l -> body x = OK (g x)) -> for_ l body = OK (l ≫= g).
Proof.
  induction l as [|a l IH]; intros Hb; [done|].
  simpl. rewrite Hb by left. rewrite IH; [done|]. intros x Hx. apply Hb. by right.
Qed.

Lemma for_ok_or {A B} (P : exn -> Prop) (l : list A) (body : A -> result (list B)) :
  (forall x, x ∈ l -> ok_or P (body x)) -> ok_or P (for_ l body).
Proof.
  induction l as [|a l IH]; intros Hb.
  - left. by exists [].
  - simpl. destruct (Hb a) as [[ys ->] | (e & -> & He)]; [left| |right; by exists e].
    destruct IH as [[zs ->] | (e & -> & He)]; [intros x Hx; apply Hb; by right| |].
    + left. by exists (ys ++ zs).
    + right. by exists e.
Qed.

Lemma for_fails {A B} (P : exn -> Prop) (l : list A) (body : A -> result (list B)) x :
  (forall x, x ∈ l -> ok_or P (body x)) -> x ∈ l ->
  (exists e, body x = Err e /\ P e) -> exists e, for_ l body = Err e /\ P e.
Proof.
  induction l as [|a l IH]; intros Hb Hx Hfail; [inversion Hx|].
  simpl. destruct (Hb a) as [[ys Hys] | (e & -> & He)]; [left| |by exists e].
  rewrite Hys. simpl.
  apply elem_of_cons in Hx as [-> | Hx].
  - destruct Hfail as (e & He & _). congruence.
  - destruct IH as (e & -> & He); [intros y Hy; apply Hb; by right|done|done|].
    by exists e.
Qed.

Lemma for_names {A} (l : list A) (body : A -> result (list (string * TempConstr)))
    (P : string * TempConstr -> Prop) r :
  (forall x ys, x ∈ l -> body x = OK ys -> Forall P ys) ->
  for_ l body = OK r -> Forall P r.
Proof.
  intros Hb Hr. apply Forall_forall. intros y Hy.
  destruct (for_OK_inv _ _ _ _ Hr Hy) as (x & ys & Hx & Hys & Hin).
  specialize (Hb x ys Hx Hys). rewrite Forall_forall in Hb. by apply Hb.
Qed.

Lemma addConstr_named name item (P : string * TempConstr -> Prop) r :
  (forall c, P (name, c)) -> addConstr name item = OK r -> Forall P r.
Proof.
  intros HP Hr. destruct item; try discriminate. injection Hr as <-.
  constructor; [apply HP|constructor].
Qed.

(** * Ranges, enumerations and the dictionaries of variables *)

Lemma lookup_keyed_map `{Countable K} {V} (g : K -> V) (ks : list K) (k : K) :
  (list_to_map ((fun k => (k, g k)) <$> ks) : gmap K V) !! k =
  if decide (k ∈ ks) then Some (g k) else None.
Proof.
  induction ks as [|k' ks IH].
  - simpl. rewrite lookup_empty. destruct (decide (k ∈ [])) as [Hin|Hin]; [inversion Hin|done].
  - rewrite fmap_cons, list_to_map_cons, lookup_insert. destruct (decide (k' = k)) as [->|Hne].
    + rewrite decide_True by left. done.
    + rewrite IH. destruct (decide (k ∈ ks)) as [Hin|Hin].
      * rewrite decide_True by (by right). done.
      * rewrite decide_False; [done|]. intros [->|Hin']%elem_of_cons; done.
Qed.

Lemma elem_of_range (n i : Z) : i ∈ range n <-> 0 <= i < n.
Proof. unfold range. rewrite elem_of_seqZ. lia. Qed.

Lemma elem_of_keys3 n1 n2 n3 a b c :
  (a, b, c) ∈ keys3 n1 n2 n3 <-> 0 <= a < n1 /\ 0 <= b < n2 /\ 0 <= c < n3.
Proof.
  unfold keys3. rewrite list_elem_of_bind. setoid_rewrite list_elem_of_bind.
  setoid_rewrite list_elem_of_bind. setoid_rewrite list_elem_of_singleton.
  setoid_rewrite elem_of_range. split.
  - intros (a' & (b' & (c' & Heq & Hc) & Hb) & Ha). by simplify_eq.
  - intros (Ha & Hb & Hc). exists a. split; [|done]. exists b. split; [|done]. by exists c.
Qed.

Lemma elem_of_keys2 n1 n2 a b :
  (a, b) ∈ keys2 n1 n2 <-> 0 <= a < n1 /\ 0 <= b < n2.
Proof.
  unfold keys2. rewrite list_elem_of_bind. setoid_rewrite list_elem_of_bind.
  setoid_rewrite list_elem_of_singleton.
  setoid_rewrite elem_of_range. split.
  - intros (a' & (b' & Heq & Hb) & Ha). by simplify_eq.
  - intros (Ha & Hb). exists a. split; [|done]. by exists b.
Qed.

Lemma elem_of_enumerate {A} (l : list A) i x :
  (i, x) ∈ enumerate l <-> 0 <= i < len l /\ l !! Z.to_nat i = Some x.
Proof.
  unfold enumerate, len. rewrite elem_of_lookup_imap. split.
  - intros (n & y & Heq & Hl). simplify_eq. rewrite Nat2Z.id. split; [|done].
    apply lookup_lt_Some in Hl. lia.
  - intros [Hi Hl]. exists (Z.to_nat i), x. split; [|done]. f_equal. lia.
Qed.

Lemma item3_addVars3 n1 n2 n3 mk a b c :
  item3 (addVars3 n1 n2 n3 mk) a b c =
  if decide (0 <= a < n1 /\ 0 <= b < n2 /\ 0 <= c < n3)
  then OK (Ref (mk a b c)) else Err (KeyError (KTuple [a; b; c])).
Proof.
  unfold item3, addVars3. rewrite lookup_keyed_map.
  destruct (decide ((a, b, c) ∈ keys3 n1 n2 n3)) as [Hin|Hin];
    rewrite elem_of_keys3 in Hin.
  - by rewrite decide_True.
  - by rewrite decide_False.
Qed.

Lemma item2_addVars2 n1 n2 mk a b :
  item2 (addVars2 n1 n2 mk) a b =
  if decide (0 <= a < n1 /\ 0 <= b < n2)
  then OK (Ref (mk a b)) else Err (KeyError (KTuple [a; b])).
Proof.
  unfold item2, addVars2. rewrite lookup_keyed_map.
  destruct (decide ((a, b) ∈ keys2 n1 n2)) as [Hin|Hin];
    rewrite elem_of_keys2 in Hin.
  - by rewrite decide_True.
  - by rewrite decide_False.
Qed.

Lemma enumerate_lookup {A} (l : list A) (i : nat) (x : A) :
  l !! i = Some x -> (Z.of_nat i, x) ∈ enumerate l /\ 0 <= Z.of_nat i < len l.
Proof.
  intros Hl. assert (0 <= Z.of_nat i < len l).
  { apply lookup_lt_Some in Hl. unfold len. lia. }
  split; [|done]. apply elem_of_enumerate. by rewrite Nat2Z.id.
Qed.

Lemma bind_singleton_fmap {A B} (f : A -> B) (l : list A) :
  l ≫= (fun a => [f a]) = f <$> l.
Proof. induction l as [|a l IH]; [done|]. csimpl. by rewrite IH. Qed.

Lemma eval_quicksum_refs {A} s (f : A -> Var) (l : list A) :
  eval s (quicksum ((fun a => Ref (f a)) <$> l)) = sum_over (fun a => s (f a)) l.
Proof.
  induction l as [|a l IH]; [done|].
  rewrite fmap_cons. unfold quicksum in *. cbn [foldr eval sum_over]. by rewrite IH.
Qed.

Lemma sum_over_binary_one (f : Z -> Z) (l : list Z) :
  NoDup l -> (forall d, d ∈ l -> f d = 0 \/ f d = 1) -> sum_over f l = 1 ->
  exists d, d ∈ l /\ f d = 1 /\ forall d', d' ∈ l -> f d' = 1 -> d' = d.
Proof.
  assert (Hzero : forall l', (forall d, d ∈ l' -> f d = 0 \/ f d = 1) ->
            0 <= sum_over f l' /\ (sum_over f l' = 0 -> forall d, d ∈ l' -> f d = 0)).
  { induction l' as [|a l' IH]; intros Hb; simpl.
    - split; [lia|]. intros _ d Hd. inversion Hd.
    - destruct IH as [Hge Hall]; [intros d Hd; apply Hb; by right|].
      assert (Ha : f a = 0 \/ f a = 1) by (apply Hb; left).
      split; [lia|].
      intros Hs d [->|Hd]%elem_of_cons; [lia|]. apply Hall; [lia|done]. }
  induction l as [|a l IH]; intros Hnd Hb Hsum; simpl in Hsum; [discriminate|].
  apply NoDup_cons in Hnd as [Hnotin Hnd].
  assert (Hbl : forall d, d ∈ l -> f d = 0 \/ f d = 1) by (intros d Hd; apply Hb; by right).
  destruct (Hzero l Hbl) as [Hge Hall].
  assert (Ha : f a = 0 \/ f a = 1) by (apply Hb; left).
  destruct Ha as [Ha|Ha].
  - destruct IH as (d & Hd & Hfd & Huniq); [done|done|lia|].
    exists d. split; [by right|]. split; [done|].
    intros d' [->|Hd']%elem_of_cons Hfd'; [lia|]. by apply Huniq.
  - exists a. split; [left|]. split; [done|].
    intros d' [->|Hd']%elem_of_cons Hfd'; [done|].
    rewrite (Hall ltac:(lia) d' Hd') in Hfd'. discriminate.
Qed.

(** * The model that solve_problem builds *)

Section built.
Context `{World}.
Variable data : ProblemData.

Let X := addVars3 (len (staff data)) (len (jobs data)) (horizon data) VarX.
Let Y := addVars3 (len (staff data)) (len (jobs data)) (len (d_qualifications data)) VarY.
Let Z_ := addVars2 (len (jobs data)) (horizon data) VarZ.

Lemma build_model_OK m :
  build_model data = OK m ->
  exists obj c1 c2 c3 c4 c5 c6 c7 c8,
    objective_of data (profits_jobs_of data) Z_ = OK obj /\
    constr_need_qualification data Y = OK c1 /\
    constr_one_qualification data Y = OK c2 /\
    constr_one_job_per_day data X = OK c3 /\
    constr_no_work_on_vacation data X = OK c4 /\
    constr_realized data X Y Z_ = OK c5 /\
    constr_realized_once data Z_ = OK c6 /\
    constr_assigned_works data X Y = OK c7 /\
    constr_staffed_days data X Y = OK c8 /\
    m_vars m = (var3 VarX <$> keys3 (len (staff data)) (len (jobs data)) (horizon data)) ++
               (var3 VarY <$> keys3 (len (staff data)) (len (jobs data)) (len (d_qualifications data))) ++
               (var2 VarZ <$> keys2 (len (jobs data)) (horizon data)) /\
    m_objective m = obj /\
    m_constrs m = c1 ++ c2 ++ c3 ++ c4 ++ c4 ++ c5 ++ c6 ++ c7 ++ c8.
Proof.
  unfold build_model. fold X Y Z_. intros Hm.
  apply bind_OK in Hm as (obj & Hobj & Hm).
  apply bind_OK in Hm as (c1 & Hc1 & Hm).
  apply bind_OK in Hm as (c2 & Hc2 & Hm).
  apply bind_OK in Hm as (c3 & Hc3 & Hm).
  apply bind_OK in Hm as (c4 & Hc4 & Hm).
  apply bind_OK in Hm as (c4' & Hc4' & Hm).
  apply bind_OK in Hm as (c5 & Hc5 & Hm).
  apply bind_OK in Hm as (c6 & Hc6 & Hm).
  apply bind_OK in Hm as (c7 & Hc7 & Hm).
  apply bind_OK in Hm as (c8 & Hc8 & Hm).
  injection Hm as <-. rewrite Hc4 in Hc4'. injection Hc4' as <-.
  exists obj, c1, c2, c3, c4, c5, c6, c7, c8. simpl. by repeat split.
Qed.

Lemma vacation_constraint_in m e employee j job d :
  build_model data = OK m ->
  staff data !! e = Some employee -> jobs data !! j = Some job -> d ∈ vacations employee ->
  ("No work on vacation", Ref (VarX (Z.of_nat e) (Z.of_nat j) d) [==] Num 0) ∈ m_constrs m.
Proof.
  intros Hm He Hj Hd.
  destruct (build_model_OK m Hm) as (obj & c1 & c2 & c3 & c4 & c5 & c6 & c7 & c8 &
    _ & _ & _ & _ & Hc4 & _ & _ & _ & _ & _ & _ & ->).
  rewrite !elem_of_app. do 3 right. left.
  assert (Hin_e : (Z.of_nat e, employee) ∈ enumerate (staff data)).
  { apply elem_of_enumerate. rewrite Nat2Z.id. split; [|done].
    apply lookup_lt_Some in He. unfold len. lia. }
  assert (Hin_j : (Z.of_nat j, job) ∈ enumerate (jobs data)).
  { apply elem_of_enumerate. rewrite Nat2Z.id. split; [|done].
    apply lookup_lt_Some in Hj. unfold len. lia. }
  destruct (for_OK_elem _ _ _ _ Hc4 Hin_e) as (r1 & Hr1 & Hsub1).
  destruct (for_OK_elem _ _ _ _ Hr1 Hin_j) as (r2 & Hr2 & Hsub2).
  destruct (for_OK_elem _ _ _ _ Hr2 Hd) as (r3 & Hr3 & Hsub3).
  apply Hsub1, Hsub2, Hsub3.
  apply bind_OK in Hr3 as (x & Hx & Hr3). unfold X in Hx.
  rewrite item3_addVars3 in Hx. case_decide; [|discriminate].
  injection Hx as <-. injection Hr3 as <-. left.
Qed.
End built.

Lemma feasible_holds m s name c :
  feasible m s -> (name, c) ∈ m_constrs m -> holds s c.
Proof.
  intros [_ Hc] Hin. rewrite Forall_forall in Hc. exact (Hc _ Hin).
Qed.

Lemma feasible_binary m s v : feasible m s -> v ∈ m_vars m -> binary s v.
Proof. intros [Hb _] Hin. rewrite Forall_forall in Hb. exact (Hb _ Hin). Qed.

Lemma feasibleb_feasible m s : feasibleb m s = true -> feasible m s.
Proof.
  unfold feasibleb, feasible. rewrite andb_true_iff, !forallb_forall.
  intros [Hb Hc]. split; apply Forall_forall.
  - intros v Hv. apply list_elem_of_In in Hv. specialize (Hb v Hv).
    unfold binaryb in Hb. unfold binary. lia.
  - intros nc Hnc. apply list_elem_of_In in Hnc. exact (Hc nc Hnc).
Qed.

(** ** Constraint 4: no work on vacation *)

(** C5: in every solution feasible for the model that solve_problem builds,
    X[e, j, d] = 0 for every employee e, every day d of e's vacations and
    every job j. *)
Theorem vacation_days_unassigned `{World} (data : ProblemData) (m : Model) (s : Var -> Z)
    (e j : nat) (employee : Employee) (job : Job) (d : Z) :
  build_model data = OK m -> feasible m s ->
  staff data !! e = Some employee -> jobs data !! j = Some job ->
  d ∈ vacations employee ->
  s (VarX (Z.of_nat e) (Z.of_nat j) d) = 0.
Proof.
  intros Hm Hs He Hj Hd.
  pose proof (vacation_constraint_in data m e employee j job d Hm He Hj Hd) as Hin.
  pose proof (feasible_holds _ _ _ _ Hs Hin) as Hc.
  unfold holds, holdsb in Hc. simpl in Hc. lia.
Qed.

Lemma vacation_days_unassigned_witness :
  idle_solution (VarX 0 0 0) = 0.
Proof.
  eapply (@vacation_days_unassigned idle_world vacation_data
           _ idle_solution 0%nat 0%nat (mkEmployee "Ann" ["A"] [0]) job_A 0).
  - vm_compute. reflexivity.
  - apply feasibleb_feasible. vm_compute. reflexivity.
  - reflexivity.
  - reflexivity.
  - simpl. left.
Defined.

(** ** Constraint 6: a job is realized once *)

Lemma realized_once_in `{World} (data : ProblemData) (m : Model) (j : nat) (job : Job) :
  build_model data = OK m -> jobs data !! j = Some job ->
  ("A job can only be realized once",
   quicksum ((fun d => Ref (VarZ (Z.of_nat j) d)) <$> range (horizon data)) [==] Num 1)
  ∈ m_constrs m.
Proof.
  intros Hm Hj.
  destruct (build_model_OK data m Hm) as (obj & c1 & c2 & c3 & c4 & c5 & c6 & c7 & c8 &
    _ & _ & _ & _ & _ & _ & Hc6 & _ & _ & _ & _ & ->).
  rewrite !elem_of_app. do 6 right. left.
  destruct (enumerate_lookup _ _ _ Hj) as [Hin Hrange].
  destruct (for_OK_elem _ _ _ _ Hc6 Hin) as (r & Hr & Hsub). apply Hsub.
  rewrite (for_ext_map _ _ (fun d => [Ref (VarZ (Z.of_nat j) d)])) in Hr.
  - rewrite bind_singleton_fmap in Hr. injection Hr as <-. left.
  - intros d Hd%elem_of_range. rewrite item2_addVars2, decide_True by done. done.
Qed.

(** C2: for every job j the built model contains the constraint
    sum over d in [0, horizon) of Z[j, d] == 1; hence in every feasible
    solution the sum is 1 and exactly one day d has Z[j, d] = 1. *)
Theorem single_completion `{World} (data : ProblemData) (m : Model) (j : nat) (job : Job) :
  build_model data = OK m -> jobs data !! j = Some job ->
  ("A job can only be realized once",
   quicksum ((fun d => Ref (VarZ (Z.of_nat j) d)) <$> range (horizon data)) [==] Num 1)
  ∈ m_constrs m /\
  forall s, feasible m s ->
    sum_over (fun d => s (VarZ (Z.of_nat j) d)) (range (horizon data)) = 1 /\
    exists d, (0 <= d < horizon data /\ s (VarZ (Z.of_nat j) d) = 1) /\
      forall d', 0 <= d' < horizon data -> s (VarZ (Z.of_nat j) d') = 1 -> d' = d.
Proof.
  intros Hm Hj. pose proof (realized_once_in data m j job Hm Hj) as Hin.
  split; [exact Hin|]. intros s Hs.
  pose proof (feasible_holds _ _ _ _ Hs Hin) as Hc.
  unfold holds, holdsb in Hc. cbn [rel lhs rhs] in Hc.
  rewrite eval_quicksum_refs in Hc. cbn [eval] in Hc. apply Z.eqb_eq in Hc.
  split; [exact Hc|].
  destruct (sum_over_binary_one (fun d => s (VarZ (Z.of_nat j) d)) (range (horizon data)))
    as (d & Hd & Hsd & Huniq).
  - apply NoDup_seqZ.
  - intros d Hd%elem_of_range. apply (feasible_binary m s); [done|].
    destruct (build_model_OK data m Hm) as (obj & c1 & c2 & c3 & c4 & c5 & c6 & c7 & c8 &
      _ & _ & _ & _ & _ & _ & _ & _ & _ & -> & _).
    rewrite !elem_of_app. do 2 right. apply list_elem_of_fmap.
    exists (Z.of_nat j, d). split; [done|]. apply elem_of_keys2.
    destruct (enumerate_lookup _ _ _ Hj) as [_ Hrange]. done.
  - exact Hc.
  - exists d. apply elem_of_range in Hd. split; [done|].
    intros d' Hd' Hsd'. apply Huniq; [by apply elem_of_range|done].
Qed.

Lemma single_completion_witness :
  sum_over (fun d => idle_solution (VarZ 0 d)) (range 1) = 1.
Proof.
  refine (proj1 (proj2 (@single_completion idle_world
                   solo_data _ 0%nat job_A _ eq_refl) idle_solution _)).
  - vm_compute. reflexivity.
  - apply feasibleb_feasible. vm_compute. reflexivity.
Defined.

(** ** Constraint 5: when a job is realized *)

(** Every constraint of a group whose name differs from [realized_name]
    satisfies a property that only speaks of that name. *)
Ltac other_group :=
  repeat (first [ eapply for_names; [|eassumption]; intros [? ?] ? ? ?
                | eapply for_names; [|eassumption]; intros ? ? ? ? ]);
  cbv beta in *;
  repeat match goal with
         | H : context [bool_decide ?P] |- _ => destruct (bool_decide P)
         | H : OK [] = OK _ |- _ => injection H as <-; constructor
         | H : _ ≫= _ = OK _ |- _ => apply bind_OK in H as (? & ? & H)
         end;
  try (eapply addConstr_named; [|eassumption]; intros ? ?; discriminate).

Lemma realized_constraints_shape `{World} (data : ProblemData) (m : Model) (c : TempConstr) :
  build_model data = OK m ->
  (realized_name, c) ∈ m_constrs m ->
  exists j d, c = (Ref (VarZ j d) [==] Num 1).
Proof.
  intros Hm Hin.
  destruct (build_model_OK data m Hm) as (obj & c1 & c2 & c3 & c4 & c5 & c6 & c7 & c8 &
    _ & Hc1 & Hc2 & Hc3 & Hc4 & Hc5 & Hc6 & Hc7 & Hc8 & _ & _ & Hcs).
  pose (P := fun nc : string * TempConstr =>
               nc.1 = realized_name -> exists j d, nc.2 = (Ref (VarZ j d) [==] Num 1)).
  assert (HP : Forall P (m_constrs m)).
  { rewrite Hcs. repeat apply Forall_app_2.
    - unfold constr_need_qualification in Hc1. other_group.
    - unfold constr_one_qualification in Hc2. other_group.
    - unfold constr_one_job_per_day in Hc3. other_group.
    - unfold constr_no_work_on_vacation in Hc4. other_group.
    - unfold constr_no_work_on_vacation in Hc4. other_group.
    - unfold constr_realized in Hc5.
      eapply for_names; [|exact Hc5]. intros [j job] ys _ Hys.
      eapply for_names; [|exact Hys]. intros d zs _ Hzs.
      apply bind_OK in Hzs as (cond & _ & Hzs).
      apply bind_OK in Hzs as (b & _ & Hzs).
      apply bind_OK in Hzs as (item & Hitem & Hzs).
      destruct b.
      + apply bind_OK in Hitem as (z & Hz & Hitem). injection Hitem as <-.
        rewrite item2_addVars2 in Hz. case_decide; [|discriminate]. injection Hz as <-.
        injection Hzs as <-. constructor; [|constructor]. intros _. by exists j, d.
      + injection Hitem as <-. discriminate Hzs.
    - unfold constr_realized_once in Hc6. other_group.
    - unfold constr_assigned_works in Hc7. other_group.
    - unfold constr_staffed_days in Hc8. other_group. }
  rewrite Forall_forall in HP. exact (HP _ Hin eq_refl).
Qed.

Lemma realized_forces_completion `{World} (data : ProblemData) (m : Model) (s : Var -> Z)
    (j : nat) (job : Job) (d : Z) :
  build_model data = OK m -> feasible m s ->
  jobs data !! j = Some job -> 0 <= d < horizon data ->
  s (VarZ (Z.of_nat j) d) = 1.
Proof.
  intros Hm Hs Hj Hd.
  destruct (build_model_OK data m Hm) as (obj & c1 & c2 & c3 & c4 & c5 & c6 & c7 & c8 &
    _ & _ & _ & _ & _ & Hc5 & _ & _ & _ & _ & _ & Hcs).
  destruct (enumerate_lookup _ _ _ Hj) as [Hin Hrange].
  apply elem_of_range in Hd as Hd'.
  destruct (for_OK_elem _ _ _ _ Hc5 Hin) as (r1 & Hr1 & Hsub1).
  destruct (for_OK_elem _ _ _ _ Hr1 Hd') as (r2 & Hr2 & Hsub2).
  apply bind_OK in Hr2 as (cond & _ & Hr2).
  apply bind_OK in Hr2 as (b & _ & Hr2).
  apply bind_OK in Hr2 as (item & Hitem & Hr2).
  destruct b; [|injection Hitem as <-; discriminate Hr2].
  rewrite item2_addVars2, decide_True in Hitem by done.
  injection Hitem as <-. injection Hr2 as <-.
  assert (Hc : (realized_name, Ref (VarZ (Z.of_nat j) d) [==] Num 1) ∈ m_constrs m).
  { rewrite Hcs, !elem_of_app. do 5 right. left. apply Hsub1, Hsub2. left. }
  pose proof (feasible_holds _ _ _ _ Hs Hc) as Hh.
  unfold holds, holdsb in Hh. simpl in Hh. lia.
Qed.

(** C1: the code at the failing input.  With one employee, one job that needs
    one day of qualification A and a horizon of one day, the only constraint
    of group 5 is Z[0,0] == 1.  The solution in which nobody works and nobody
    is assigned is feasible and has Z[0,0] = 1, although no employee-day of
    qualification A has accumulated (0 against the required 1) and nobody
    works the job on day 0. *)
Theorem realized_ignores_staffing :
  exists m, @build_model idle_world solo_data = OK m /\
    filter (fun nc => nc.1 = realized_name) (m_constrs m) =
    [(realized_name, Ref (VarZ 0 0) [==] Num 1)] /\
    feasibleb m idle_solution = true /\
    idle_solution (VarZ 0 0) = 1 /\
    staffed_through solo_data idle_solution 0 0 0 = 0 /\
    default 0 (working_days_per_qualification job_A !! "A") = 1 /\
    sum_over (fun e => idle_solution (VarX e 0 0)) (range (len (staff solo_data))) = 0.
Proof.
  eexists. split; [vm_compute; reflexivity|].
  repeat split; vm_compute; reflexivity.
Qed.

(** A false condition object makes the generator yield the integer 0, which
    cannot be added to the model. *)
Example realized_falsy_rejected :
  @build_model (falsy_world (solved_with idle_solution 100)) solo_data =
  Err (GurobiError "not a constraint").
Proof. vm_compute. reflexivity. Qed.

(** With two days the built model has no feasible solution at all: group 5
    asks for Z[0,0] = 1 and Z[0,1] = 1, group 6 for their sum to be 1. *)
Lemma two_days_infeasible `{World} (m : Model) (s : Var -> Z) :
  build_model two_day_data = OK m -> ~ feasible m s.
Proof.
  intros Hm Hs.
  pose proof (realized_forces_completion two_day_data m s 0%nat job_A 0
                Hm Hs eq_refl ltac:(simpl; lia)) as Hz0.
  pose proof (realized_forces_completion two_day_data m s 0%nat job_A 1
                Hm Hs eq_refl ltac:(simpl; lia)) as Hz1.
  pose proof (feasible_holds _ _ _ _ Hs (realized_once_in two_day_data m 0%nat job_A Hm eq_refl))
    as Hsum.
  unfold holds, holdsb in Hsum. cbn [rel lhs rhs] in Hsum.
  rewrite eval_quicksum_refs in Hsum. change (range (horizon two_day_data)) with [0; 1] in Hsum.
  unfold sum_over in Hsum. simpl in Hsum, Hz0, Hz1. lia.
Qed.

(** At that input the equivalence of the specification fails in the model of
    the code: the idle solution is feasible and completes the job, and the
    completion condition does not hold. *)
Lemma completion_claim_fails_idle :
  ~ (forall (W : World) (data : ProblemData) (m : Model) (s : Var -> Z)
            (j : nat) (job : Job) (d : Z),
       build_model data = OK m -> feasible m s ->
       jobs data !! j = Some job -> 0 <= d < horizon data ->
       (s (VarZ (Z.of_nat j) d) = 1 <->
        completion_condition_spec data s (Z.of_nat j) job d)).
Proof.
  intros Hclaim.
  assert (Hm : exists m, @build_model idle_world solo_data = OK m /\
                         feasibleb m idle_solution = true).
  { eexists. split; vm_compute; reflexivity. }
  destruct Hm as (m & Hm & Hfeas). apply feasibleb_feasible in Hfeas.
  destruct (proj1 (Hclaim idle_world solo_data m idle_solution 0%nat job_A 0
                     Hm Hfeas eq_refl ltac:(simpl; lia)) eq_refl) as [_ Hworks].
  vm_compute in Hworks. apply Hworks. reflexivity.
Qed.

(** ** Vacation days outside the horizon *)

(** Lookups at positions taken from [enumerate] and [range] succeed. *)
Ltac in_range :=
  repeat match goal with
         | H : (_, _) ∈ enumerate _ |- _ => apply elem_of_enumerate in H as [? ?]
         | H : _ ∈ range _ |- _ => apply elem_of_range in H
         end;
  rewrite ?item3_addVars3, ?item2_addVars2;
  rewrite ?decide_True by (repeat split; lia).

Section totality.
Context `{World}.
Variable data : ProblemData.

Let X := addVars3 (len (staff data)) (len (jobs data)) (horizon data) VarX.
Let Y := addVars3 (len (staff data)) (len (jobs data)) (len (d_qualifications data)) VarY.
Let Z_ := addVars2 (len (jobs data)) (horizon data) VarZ.

Lemma profits_jobs_lookup j job day :
  (j, job) ∈ enumerate (jobs data) -> day ∈ range (horizon data) ->
  exists p, dict_item (profits_jobs_of data) j day = OK p.
Proof.
  intros Hj Hd. unfold dict_item.
  destruct (profits_jobs_of data !! (j, day)) as [p|] eqn:Hp; [by exists p|].
  exfalso. apply not_elem_of_list_to_map in Hp. apply Hp.
  apply list_elem_of_fmap. exists ((j, day), get_profit job day). split; [done|].
  apply list_elem_of_bind. exists (j, job). split; [|done].
  apply list_elem_of_bind. exists day. split; [|done]. left.
Qed.

Lemma objective_total : exists obj, objective_of data (profits_jobs_of data) Z_ = OK obj.
Proof.
  unfold objective_of.
  destruct (for_total (enumerate (jobs data)) (fun '(job_index, _) =>
           for_ (range (horizon data)) (fun day =>
             p ← dict_item (profits_jobs_of data) job_index day;
             z ← item2 Z_ job_index day;
             yield (Mul (Num p) z)))) as [terms ->]; [|by eexists].
  intros [j job] Hj. apply for_total. intros day Hd.
  destruct (profits_jobs_lookup j job day Hj Hd) as [p ->]. unfold Z_.
  in_range. by eexists.
Qed.

Lemma need_qualification_total : exists c, constr_need_qualification data Y = OK c.
Proof.
  apply for_total. intros [e employee] He. apply for_total. intros [j job] Hj.
  apply for_total. intros [q qual] Hq. case_bool_decide; [|by eexists].
  unfold Y. in_range. by eexists.
Qed.

Lemma one_qualification_total : exists c, constr_one_qualification data Y = OK c.
Proof.
  apply for_total. intros [e employee] He. apply for_total. intros [j job] Hj.
  destruct (for_total (enumerate (d_qualifications data)) (fun '(qualification_index, _) =>
              y ← item3 Y e j qualification_index; yield y)) as [ys ->]; [|by eexists].
  intros [q qual] Hq. unfold Y. in_range. by eexists.
Qed.

Lemma one_job_per_day_total : exists c, constr_one_job_per_day data X = OK c.
Proof.
  apply for_total. intros [e employee] He. apply for_total. intros day Hd.
  destruct (for_total (enumerate (jobs data)) (fun '(job_index, _) =>
              x ← item3 X e job_index day; yield x)) as [xs ->]; [|by eexists].
  intros [j job] Hj. unfold X. in_range. by eexists.
Qed.

Lemma no_work_on_vacation_fails employee day :
  jobs data <> [] -> employee ∈ staff data -> day ∈ vacations employee ->
  ~ (0 <= day < horizon data) ->
  exists e, constr_no_work_on_vacation data X = Err e /\ bad_day data e.
Proof.
  intros Hjobs Hemp Hday Hout.
  apply list_elem_of_lookup in Hemp as [i Hi].
  destruct (enumerate_lookup _ _ _ Hi) as [Hin_e _].
  assert (Hin_j : exists job0, (0, job0) ∈ enumerate (jobs data)).
  { destruct (jobs data !! 0%nat) as [job0|] eqn:Hj0.
    - exists job0. by apply (enumerate_lookup (jobs data) 0%nat job0).
    - apply lookup_ge_None in Hj0. destruct (jobs data); [done|simpl in Hj0; lia]. }
  destruct Hin_j as [job0 Hin_j].
  assert (Hday_body : forall e j d,
            0 <= e < len (staff data) -> 0 <= j < len (jobs data) ->
            ok_or (bad_day data) (x ← item3 X e j d;
                           addConstr "No work on vacation" (OConstr (x [==] Num 0)))).
  { intros e j d He Hj. unfold X. rewrite item3_addVars3. case_decide as Hr.
    - left. by eexists.
    - right. eexists. split; [done|]. exists e, j, d. split; [done|]. intros Hd. apply Hr. lia. }
  unfold constr_no_work_on_vacation.
  eapply (for_fails (bad_day data) _ _ (Z.of_nat i, employee)); [|exact Hin_e|].
  - intros [e emp] [He _]%elem_of_enumerate. apply for_ok_or.
    intros [j job] [Hj _]%elem_of_enumerate. apply for_ok_or.
    intros d _. by apply Hday_body.
  - apply elem_of_enumerate in Hin_e as [He _].
    eapply (for_fails (bad_day data) _ _ (0, job0)); [|exact Hin_j|].
    + intros [j job] [Hj _]%elem_of_enumerate. apply for_ok_or. intros d _.
      by apply Hday_body.
    + apply elem_of_enumerate in Hin_j as [Hj _].
      eapply (for_fails (bad_day data) _ _ day); [|exact Hday|].
      * intros d _. by apply Hday_body.
      * unfold X. rewrite item3_addVars3, decide_False by (intros (_ & _ & ?); done).
        eexists. split; [done|]. exists (Z.of_nat i), 0, day. done.
Qed.

Lemma build_model_bad_vacation employee day :
  jobs data <> [] -> employee ∈ staff data -> day ∈ vacations employee ->
  ~ (0 <= day < horizon data) ->
  exists e, build_model data = Err e /\ bad_day data e.
Proof.
  intros Hjobs Hemp Hday Hout. unfold build_model. fold X Y Z_.
  destruct objective_total as [obj ->].
  destruct need_qualification_total as [c1 ->].
  destruct one_qualification_total as [c2 ->].
  destruct one_job_per_day_total as [c3 ->].
  destruct (no_work_on_vacation_fails employee day Hjobs Hemp Hday Hout) as (e & -> & He).
  by exists e.
Qed.
End totality.

(** C10, amended: when there is at least one job and some employee's
    vacations contain a day outside [0, horizon), solve_problem ends with the
    KeyError of a lookup X[i, j, d] with d outside the horizon, raised while
    the vacation constraints are generated; nothing is printed and the engine
    is not called. *)
Theorem vacation_out_of_range_fails `{World} (data : ProblemData)
    (employee : Employee) (day : Z) :
  jobs data <> [] -> employee ∈ staff data -> day ∈ vacations employee ->
  ~ (0 <= day < horizon data) ->
  exists i j d, ~ (0 <= d < horizon data) /\
    solve_problem data = IO [] (Err (KeyError (KTuple [i; j; d]))).
Proof.
  intros Hjobs Hemp Hday Hout.
  destruct (build_model_bad_vacation data employee day Hjobs Hemp Hday Hout)
    as (e & Hb & i & j & d & -> & Hd).
  exists i, j, d. split; [exact Hd|]. unfold solve_problem. rewrite Hb. reflexivity.
Qed.

Lemma vacation_out_of_range_fails_witness :
  exists i j d, ~ (0 <= d < 1) /\
    @solve_problem idle_world late_vacation_data =
    IO [] (Err (KeyError (KTuple [i; j; d]))).
Proof.
  apply (@vacation_out_of_range_fails idle_world
           late_vacation_data (mkEmployee "Ann" ["A"] [5]) 5).
  - discriminate.
  - left.
  - left.
  - simpl. lia.
Defined.

(** C10 as stated fails: without jobs the vacation generator never looks a
    day up, and solve_problem runs to the end. *)
Lemma vacation_out_of_range_without_jobs :
  ~ (forall (W : World) (data : ProblemData) (employee : Employee) (day : Z),
       employee ∈ staff data -> day ∈ vacations employee ->
       ~ (0 <= day < horizon data) ->
       exists e, outcome (solve_problem data) = Err e).
Proof.
  intros Hclaim.
  destruct (Hclaim empty_world no_jobs_data
              (mkEmployee "Ann" ["A"] [5]) 5) as [e He].
  - left.
  - left.
  - simpl. lia.
  - vm_compute in He. discriminate He.
Qed.

(** * Solution interpreter *)

Lemma str_digit z : 0 <= z <= 9 -> exists c, str z = String c "" /\ int c = OK z.
Proof.
  intros Hz.
  assert (Hcases : z = 0 \/ z = 1 \/ z = 2 \/ z = 3 \/ z = 4 \/ z = 5 \/ z = 6 \/
                   z = 7 \/ z = 8 \/ z = 9) by lia.
  repeat destruct Hcases as [-> | Hcases]; try subst z; eexists; split; reflexivity.
Qed.

Lemma list_getitem_lookup {A} (l : list A) (i : Z) (a : A) :
  0 <= i -> l !! Z.to_nat i = Some a -> list_getitem l i = OK a.
Proof.
  intros Hi Hl. unfold list_getitem.
  destruct (Z.leb_spec 0 i); [|lia]. destruct (Z.ltb_spec i 0); [lia|]. by rewrite Hl.
Qed.

Lemma name_X e j d :
  0 <= e <= 9 -> 0 <= j <= 9 -> 0 <= d <= 9 ->
  str_getitem (varName (VarX e j d)) 0 = OK "X"%char /\
  index_at (varName (VarX e j d)) 2 = OK e /\
  index_at (varName (VarX e j d)) 4 = OK j /\
  index_at (varName (VarX e j d)) 6 = OK d.
Proof.
  intros He Hj Hd.
  destruct (str_digit e He) as (ce & Hse & Hie).
  destruct (str_digit j Hj) as (cj & Hsj & Hij).
  destruct (str_digit d Hd) as (cd & Hsd & Hid).
  unfold varName. rewrite Hse, Hsj, Hsd. rewrite <- Hie, <- Hij, <- Hid.
  repeat split; reflexivity.
Qed.

Lemma name_Y e j q :
  0 <= e <= 9 -> 0 <= j <= 9 -> 0 <= q <= 9 ->
  str_getitem (varName (VarY e j q)) 0 = OK "Y"%char /\
  index_at (varName (VarY e j q)) 2 = OK e /\
  index_at (varName (VarY e j q)) 4 = OK j /\
  index_at (varName (VarY e j q)) 6 = OK q.
Proof.
  intros He Hj Hq.
  destruct (str_digit e He) as (ce & Hse & Hie).
  destruct (str_digit j Hj) as (cj & Hsj & Hij).
  destruct (str_digit q Hq) as (cq & Hsq & Hiq).
  unfold varName. rewrite Hse, Hsj, Hsq. rewrite <- Hie, <- Hij, <- Hiq.
  repeat split; reflexivity.
Qed.

Lemma name_Z j d :
  0 <= j <= 9 -> 0 <= d <= 9 ->
  str_getitem (varName (VarZ j d)) 0 = OK "Z"%char /\
  index_at (varName (VarZ j d)) 2 = OK j /\
  index_at (varName (VarZ j d)) 4 = OK d.
Proof.
  intros Hj Hd.
  destruct (str_digit j Hj) as (cj & Hsj & Hij).
  destruct (str_digit d Hd) as (cd & Hsd & Hid).
  unfold varName. rewrite Hsj, Hsd. rewrite <- Hij, <- Hid.
  repeat split; reflexivity.
Qed.

Lemma report_var_fact (data : ProblemData) (v : Var) (x : Q) (l : line) :
  single_digit v -> fact_of data v = Some l ->
  report_var data v x = if Qeq_bool x 1 then print l else mret tt.
Proof.
  intros Hv Hfact. unfold report_var. destruct (Qeq_bool x 1); [|reflexivity].
  destruct v as [e j d | e j q | j d]; simpl in Hv, Hfact.
  - destruct Hv as (He & Hj & Hd).
    destruct (staff data !! Z.to_nat e) as [employee|] eqn:Hemp; [|discriminate].
    destruct (jobs data !! Z.to_nat j) as [job|] eqn:Hjob; [|discriminate].
    simpl in Hfact. injection Hfact as <-.
    destruct (name_X e j d He Hj Hd) as (-> & -> & -> & ->).
    cbn -[list_getitem].
    rewrite (list_getitem_lookup _ _ _ (proj1 He) Hemp).
    rewrite (list_getitem_lookup _ _ _ (proj1 Hj) Hjob). reflexivity.
  - destruct Hv as (He & Hj & Hq).
    destruct (staff data !! Z.to_nat e) as [employee|] eqn:Hemp; [|discriminate].
    destruct (jobs data !! Z.to_nat j) as [job|] eqn:Hjob; [|discriminate].
    destruct (d_qualifications data !! Z.to_nat q) as [qual|] eqn:Hqual; [|discriminate].
    simpl in Hfact. injection Hfact as <-.
    destruct (name_Y e j q He Hj Hq) as (-> & -> & -> & ->).
    cbn -[list_getitem].
    rewrite (list_getitem_lookup _ _ _ (proj1 He) Hemp).
    rewrite (list_getitem_lookup _ _ _ (proj1 Hj) Hjob).
    rewrite (list_getitem_lookup _ _ _ (proj1 Hq) Hqual). reflexivity.
  - destruct Hv as (Hj & Hd).
    destruct (jobs data !! Z.to_nat j) as [job|] eqn:Hjob; [|discriminate].
    simpl in Hfact. injection Hfact as <-.
    destruct (name_Z j d Hj Hd) as (-> & -> & ->).
    cbn -[list_getitem].
    rewrite (list_getitem_lookup _ _ _ (proj1 Hj) Hjob). reflexivity.
Qed.

Lemma for_each_report (data : ProblemData) (vars : list Var) (x : Var -> Q) :
  (forall v, v ∈ vars -> single_digit v /\ is_Some (fact_of data v)) ->
  for_each vars (fun v => report_var data v (x v)) =
  IO (EPrint <$> true_facts data vars x) (OK tt).
Proof.
  induction vars as [|v vars IH]; intros Hvars; [reflexivity|].
  destruct (Hvars v) as [Hdig [l Hl]]; [left|].
  cbn [for_each]. rewrite (report_var_fact data v (x v) l Hdig Hl).
  rewrite IH by (intros v' Hv'; apply Hvars; by right).
  unfold true_facts. cbn [omap list_omap]. destruct (Qeq_bool (x v) 1).
  - rewrite Hl. reflexivity.
  - reflexivity.
Qed.

Lemma model_vars_single_digit `{World} (data : ProblemData) (m : Model) (v : Var) :
  build_model data = OK m ->
  len (staff data) <= 10 -> len (jobs data) <= 10 ->
  len (d_qualifications data) <= 10 -> horizon data <= 10 ->
  v ∈ m_vars m -> single_digit v /\ is_Some (fact_of data v).
Proof.
  intros Hm Hs Hj Hq Hh Hv.
  destruct (build_model_OK data m Hm) as (obj & c1 & c2 & c3 & c4 & c5 & c6 & c7 & c8 &
    _ & _ & _ & _ & _ & _ & _ & _ & _ & Hvars & _).
  rewrite Hvars in Hv. rewrite !elem_of_app in Hv.
  assert (Hlook : forall {A} (l : list A) i, 0 <= i < len l -> is_Some (l !! Z.to_nat i)).
  { intros A l i Hi. apply lookup_lt_is_Some. unfold len in Hi. lia. }
  destruct Hv as [Hv | [Hv | Hv]]; apply list_elem_of_fmap in Hv as (k & -> & Hk).
  - destruct k as [[e j] d]. apply elem_of_keys3 in Hk as (He & Hj' & Hd).
    split; [simpl; lia|]. cbn [var3 fact_of fst snd].
    destruct (Hlook _ (staff data) e He) as [? ->].
    destruct (Hlook _ (jobs data) j Hj') as [? ->]. by eexists.
  - destruct k as [[e j] q]. apply elem_of_keys3 in Hk as (He & Hj' & Hq').
    split; [simpl; lia|]. cbn [var3 fact_of fst snd].
    destruct (Hlook _ (staff data) e He) as [? ->].
    destruct (Hlook _ (jobs data) j Hj') as [? ->].
    destruct (Hlook _ (d_qualifications data) q Hq') as [? ->]. by eexists.
  - destruct k as [j d]. apply elem_of_keys2 in Hk as (Hj' & Hd).
    split; [simpl; lia|]. cbn [var2 fact_of fst snd].
    destruct (Hlook _ (jobs data) j Hj') as [? ->]. by eexists.
Qed.

Lemma solve_problem_built `{World} (data : ProblemData) (m : Model) :
  build_model data = OK m ->
  solve_problem data =
  IO (EOptimize :: trace (report data m (optimize m)))
     (match outcome (report data m (optimize m)) with
      | OK _ => OK m
      | Err e => Err e
      end).
Proof.
  intros Hm. unfold solve_problem. rewrite Hm.
  destruct (report data m (optimize m)) as [tr [[]|e]] eqn:Hr;
    cbn; rewrite Hr; cbn; rewrite ?app_nil_r; reflexivity.
Qed.

Lemma report_optimal (data : ProblemData) (m : Model) (sol : Solved) :
  s_status sol = OPTIMAL ->
  (forall v, v ∈ m_vars m -> single_digit v /\ is_Some (fact_of data v)) ->
  report data m sol =
  IO (EPrint (LOptimal (s_objval sol)) ::
      (EPrint <$> true_facts data (m_vars m) (s_x sol)) ++ [EPrint (LObjective (s_objval sol))])
     (OK tt).
Proof.
  intros Hopt Hvars. unfold report. rewrite Hopt.
  rewrite (for_each_report data (m_vars m) _ Hvars). reflexivity.
Qed.

(** C9: the interpreter reads the indices from single characters at fixed
    positions of the variable name.  When every employee, job and
    qualification index and every day is at most 9, an optimal solve prints
    exactly the facts of the variables whose value is 1, with their own
    indices.  With eleven qualifications the variable Y[0,0,10] is reported
    under qualification 1, and with eleven employees the variable X[10,0,0]
    makes [int] raise ValueError on the comma. *)
Theorem report_parses_names :
  (forall (W : World) (data : ProblemData) (m : Model),
      build_model data = OK m ->
      len (staff data) <= 10 -> len (jobs data) <= 10 ->
      len (d_qualifications data) <= 10 -> horizon data <= 10 ->
      s_status (optimize m) = OPTIMAL ->
      (forall v, v ∈ m_vars m -> is_Some (fact_of data v)) /\
      solve_problem data =
      IO (EOptimize :: EPrint (LOptimal (s_objval (optimize m))) ::
          (EPrint <$> true_facts data (m_vars m) (s_x (optimize m))) ++
          [EPrint (LObjective (s_objval (optimize m)))])
         (OK m)) /\
  (exists m, @build_model many_quals_world
               many_quals_data = OK m /\
     feasibleb m many_quals_solution = true /\
     VarY 0 0 10 ∈ m_vars m /\
     fact_of many_quals_data (VarY 0 0 10) = Some (LAssigned "Ann" "J" "Q10") /\
     report_var many_quals_data (VarY 0 0 10) 1 = print (LAssigned "Ann" "J" "Q1")) /\
  (exists m, @build_model crowd_world
               crowd_data = OK m /\
     feasibleb m crowd_solution = true /\
     VarX 10 0 0 ∈ m_vars m /\
     outcome (@solve_problem crowd_world crowd_data) =
     Err (ValueError "invalid literal for int() with base 10: ','")).
Proof.
  split; [|split].
  - intros W data m Hm Hs Hj Hq Hh Hopt.
    pose proof (fun v => model_vars_single_digit data m v Hm Hs Hj Hq Hh) as Hvars.
    split; [intros v Hv; by apply Hvars|].
    rewrite (solve_problem_built data m Hm).
    rewrite (report_optimal data m _ Hopt Hvars). reflexivity.
  - eexists. split; [vm_compute; reflexivity|].
    split; [vm_compute; reflexivity|].
    split; [|split; vm_compute; reflexivity].
    apply list_elem_of_In. vm_compute. tauto.
  - eexists. split; [vm_compute; reflexivity|].
    split; [vm_compute; reflexivity|].
    split; [|vm_compute; reflexivity].
    apply list_elem_of_In. vm_compute. tauto.
Qed.

Lemma report_parses_names_witness :
  trace (@solve_problem idle_world solo_data) =
  [EOptimize; EPrint (LOptimal (inject_Z 100)); EPrint (LFinished "J" 0);
   EPrint (LObjective (inject_Z 100))].
Proof.
  refine (eq_trans (f_equal trace (proj2 (proj1 report_parses_names
            idle_world solo_data _ _ _ _ _ _ _))) _).
  - vm_compute. reflexivity.
  - vm_compute. discriminate.
  - vm_compute. discriminate.
  - vm_compute. discriminate.
  - vm_compute. discriminate.
  - reflexivity.
  - vm_compute. reflexivity.
Defined.

Lemma report_var_exact (data : ProblemData) (v : Var) (x : Q) :
  report_var data v x = if Qeq_bool x 1 then report_var data v 1 else mret tt.
Proof. unfold report_var. destruct (Qeq_bool x 1); reflexivity. Qed.




(** * Further properties of the built model *)

Lemma enumerate_fst {A} (l : list A) : (enumerate l).*1 = range (len l).
Proof.
  apply list_eq. intros i. unfold enumerate, range, len.
  rewrite list_lookup_fmap, list_lookup_imap.
  destruct (l !! i) as [a|] eqn:Hl; simpl.
  - apply lookup_lt_Some in Hl. rewrite lookup_seqZ_lt by lia. done.
  - apply lookup_ge_None in Hl. rewrite lookup_seqZ_ge by lia. done.
Qed.

Lemma sum_over_app {A} (f : A -> Z) (l1 l2 : list A) :
  sum_over f (l1 ++ l2) = sum_over f l1 + sum_over f l2.
Proof. induction l1 as [|a l1 IH]; simpl; [done|]. unfold sum_over in *. simpl. lia. Qed.

Lemma sum_over_fmap {A B} (f : B -> Z) (g : A -> B) (l : list A) :
  sum_over f (g <$> l) = sum_over (fun a => f (g a)) l.
Proof. induction l as [|a l IH]; [done|]. unfold sum_over in *. csimpl. by rewrite IH. Qed.

Lemma sum_over_bind {A B} (f : B -> Z) (g : A -> list B) (l : list A) :
  sum_over f (l ≫= g) = sum_over (fun a => sum_over f (g a)) l.
Proof.
  induction l as [|a l IH]; [done|]. csimpl. rewrite sum_over_app, IH. done.
Qed.

Lemma sum_over_ext {A} (f g : A -> Z) (l : list A) :
  (forall a, a ∈ l -> f a = g a) -> sum_over f l = sum_over g l.
Proof.
  induction l as [|a l IH]; intros Hfg; [done|]. unfold sum_over in *. simpl.
  rewrite (Hfg a) by left. rewrite IH; [done|]. intros b Hb. apply Hfg. by right.
Qed.

Lemma eval_quicksum s (terms : list expr) :
  eval s (quicksum terms) = sum_over (eval s) terms.
Proof. induction terms as [|t terms IH]; [done|]. unfold quicksum, sum_over in *. simpl. by rewrite IH. Qed.

Lemma sum_over_nonneg {A} (f : A -> Z) (l : list A) :
  (forall a, a ∈ l -> 0 <= f a) -> 0 <= sum_over f l.
Proof.
  induction l as [|a l IH]; intros Hf; unfold sum_over in *; simpl; [lia|].
  specialize (Hf a ltac:(left)) as Ha.
  specialize (IH ltac:(intros b Hb; apply Hf; by right)). lia.
Qed.

Lemma sum_over_elem_le {A} (f : A -> Z) (l : list A) (a : A) :
  (forall b, b ∈ l -> 0 <= f b) -> a ∈ l -> f a <= sum_over f l.
Proof.
  induction l as [|b l IH]; intros Hf Ha; [inversion Ha|].
  unfold sum_over in *. simpl.
  pose proof (sum_over_nonneg f l ltac:(intros c Hc; apply Hf; by right)) as Hl.
  unfold sum_over in Hl.
  apply elem_of_cons in Ha as [-> | Ha]; [lia|].
  specialize (Hf b ltac:(left)) as Hb.
  specialize (IH ltac:(intros c Hc; apply Hf; by right) Ha). lia.
Qed.

(** Two distinct positions of a duplicate-free list contribute both of their
    terms to the sum. *)
Lemma sum_over_two_le {A} (f : A -> Z) (l : list A) (a b : A) :
  NoDup l -> (forall c, c ∈ l -> 0 <= f c) -> a ∈ l -> b ∈ l -> a <> b ->
  f a + f b <= sum_over f l.
Proof.
  induction l as [|c l IH]; intros Hnd Hf Ha Hb Hab; [inversion Ha|].
  apply NoDup_cons in Hnd as [Hc Hnd].
  assert (Hfl : forall c', c' ∈ l -> 0 <= f c') by (intros c' Hc'; apply Hf; by right).
  specialize (Hf c ltac:(left)) as Hfc.
  unfold sum_over in *. simpl.
  apply elem_of_cons in Ha as [-> | Ha]; apply elem_of_cons in Hb as [-> | Hb].
  - done.
  - pose proof (sum_over_elem_le f l b Hfl Hb) as Hle. unfold sum_over in Hle. lia.
  - pose proof (sum_over_elem_le f l a Hfl Ha) as Hle. unfold sum_over in Hle. lia.
  - specialize (IH Hnd Hfl Ha Hb Hab). lia.
Qed.

Lemma sum_over_positive_elem {A} (f : A -> Z) (l : list A) :
  (forall a, a ∈ l -> f a = 0 \/ f a = 1) -> 1 <= sum_over f l ->
  exists a, a ∈ l /\ f a = 1.
Proof.
  induction l as [|a l IH]; intros Hf Hsum; unfold sum_over in *; simpl in Hsum; [lia|].
  destruct (Hf a ltac:(left)) as [Ha | Ha].
  - destruct IH as (b & Hb & Hfb); [intros b Hb; apply Hf; by right|lia|].
    exists b. split; [by right|done].
  - exists a. split; [left|done].
Qed.

Lemma binary_nonneg s v : binary s v -> 0 <= s v.
Proof. unfold binary. lia. Qed.

Section variables_of_the_model.
Context `{World}.
Variable data : ProblemData.
Variable m : Model.
Hypothesis Hm : build_model data = OK m.

Lemma VarX_in_model e j d :
  0 <= e < len (staff data) -> 0 <= j < len (jobs data) -> 0 <= d < horizon data ->
  VarX e j d ∈ m_vars m.
Proof.
  intros He Hj Hd.
  destruct (build_model_OK data m Hm) as (obj & c1 & c2 & c3 & c4 & c5 & c6 & c7 & c8 &
    _ & _ & _ & _ & _ & _ & _ & _ & _ & -> & _).
  rewrite !elem_of_app. left. apply list_elem_of_fmap.
  exists (e, j, d). split; [done|]. by apply elem_of_keys3.
Qed.

Lemma VarY_in_model e j q :
  0 <= e < len (staff data) -> 0 <= j < len (jobs data) ->
  0 <= q < len (d_qualifications data) ->
  VarY e j q ∈ m_vars m.
Proof.
  intros He Hj Hq.
  destruct (build_model_OK data m Hm) as (obj & c1 & c2 & c3 & c4 & c5 & c6 & c7 & c8 &
    _ & _ & _ & _ & _ & _ & _ & _ & _ & -> & _).
  rewrite !elem_of_app. right. left. apply list_elem_of_fmap.
  exists (e, j, q). split; [done|]. by apply elem_of_keys3.
Qed.

Lemma VarZ_in_model j d :
  0 <= j < len (jobs data) -> 0 <= d < horizon data -> VarZ j d ∈ m_vars m.
Proof.
  intros Hj Hd.
  destruct (build_model_OK data m Hm) as (obj & c1 & c2 & c3 & c4 & c5 & c6 & c7 & c8 &
    _ & _ & _ & _ & _ & _ & _ & _ & _ & -> & _).
  rewrite !elem_of_app. right. right. apply list_elem_of_fmap.
  exists (j, d). split; [done|]. by apply elem_of_keys2.
Qed.
End variables_of_the_model.

Lemma sum_over_enumerate_fst {A} (f : Z -> Z) (l : list A) :
  sum_over (fun p => f p.1) (enumerate l) = sum_over f (range (len l)).
Proof. rewrite <- enumerate_fst, sum_over_fmap. done. Qed.

Section constraint_groups.
Context `{World}.
Variable data : ProblemData.
Variable m : Model.
Hypothesis Hm : build_model data = OK m.

Lemma need_qualification_in e employee j job q qualification :
  staff data !! e = Some employee -> jobs data !! j = Some job ->
  d_qualifications data !! q = Some qualification ->
  qualification ∉ qualifications employee ->
  ("Need to have qualification to work on a job",
   Ref (VarY (Z.of_nat e) (Z.of_nat j) (Z.of_nat q)) [==] Num 0) ∈ m_constrs m.
Proof.
  intros He Hj Hq Hnot.
  destruct (build_model_OK data m Hm) as (obj & c1 & c2 & c3 & c4 & c5 & c6 & c7 & c8 &
    _ & Hc1 & _ & _ & _ & _ & _ & _ & _ & _ & _ & ->).
  rewrite !elem_of_app. left.
  destruct (enumerate_lookup _ _ _ He) as [Hin_e He'].
  destruct (enumerate_lookup _ _ _ Hj) as [Hin_j Hj'].
  destruct (enumerate_lookup _ _ _ Hq) as [Hin_q Hq'].
  destruct (for_OK_elem _ _ _ _ Hc1 Hin_e) as (r1 & Hr1 & Hsub1).
  destruct (for_OK_elem _ _ _ _ Hr1 Hin_j) as (r2 & Hr2 & Hsub2).
  destruct (for_OK_elem _ _ _ _ Hr2 Hin_q) as (r3 & Hr3 & Hsub3).
  apply Hsub1, Hsub2, Hsub3.
  rewrite bool_decide_true in Hr3 by done.
  rewrite item3_addVars3, decide_True in Hr3 by done.
  injection Hr3 as <-. left.
Qed.

Lemma one_qualification_in e employee j job :
  staff data !! e = Some employee -> jobs data !! j = Some job ->
  ("One qualification per employee per job",
   quicksum ((fun q => Ref (VarY (Z.of_nat e) (Z.of_nat j) q)) <$>
             range (len (d_qualifications data))) [<=] Num 1) ∈ m_constrs m.
Proof.
  intros He Hj.
  destruct (build_model_OK data m Hm) as (obj & c1 & c2 & c3 & c4 & c5 & c6 & c7 & c8 &
    _ & _ & Hc2 & _ & _ & _ & _ & _ & _ & _ & _ & ->).
  rewrite !elem_of_app. right. left.
  destruct (enumerate_lookup _ _ _ He) as [Hin_e He'].
  destruct (enumerate_lookup _ _ _ Hj) as [Hin_j Hj'].
  destruct (for_OK_elem _ _ _ _ Hc2 Hin_e) as (r1 & Hr1 & Hsub1).
  destruct (for_OK_elem _ _ _ _ Hr1 Hin_j) as (r2 & Hr2 & Hsub2).
  apply Hsub1, Hsub2.
  rewrite (for_ext_map _ _ (fun p => [Ref (VarY (Z.of_nat e) (Z.of_nat j) p.1)])) in Hr2.
  - rewrite (bind_singleton_fmap (fun p : Z * string => Ref (VarY (Z.of_nat e) (Z.of_nat j) p.1)))
      in Hr2.
    rewrite <- enumerate_fst, <- list_fmap_compose. injection Hr2 as <-. left.
  - intros [q qual] [Hq _]%elem_of_enumerate.
    rewrite item3_addVars3, decide_True by done. done.
Qed.

Lemma one_job_per_day_in e employee d :
  staff data !! e = Some employee -> 0 <= d < horizon data ->
  ("One job per employee per day",
   quicksum ((fun j => Ref (VarX (Z.of_nat e) j d)) <$> range (len (jobs data))) [<=] Num 1)
  ∈ m_constrs m.
Proof.
  intros He Hd.
  destruct (build_model_OK data m Hm) as (obj & c1 & c2 & c3 & c4 & c5 & c6 & c7 & c8 &
    _ & _ & _ & Hc3 & _ & _ & _ & _ & _ & _ & _ & ->).
  rewrite !elem_of_app. do 2 right. left.
  destruct (enumerate_lookup _ _ _ He) as [Hin_e He'].
  apply elem_of_range in Hd as Hin_d.
  destruct (for_OK_elem _ _ _ _ Hc3 Hin_e) as (r1 & Hr1 & Hsub1).
  destruct (for_OK_elem _ _ _ _ Hr1 Hin_d) as (r2 & Hr2 & Hsub2).
  apply Hsub1, Hsub2.
  rewrite (for_ext_map _ _ (fun p => [Ref (VarX (Z.of_nat e) p.1 d)])) in Hr2.
  - rewrite (bind_singleton_fmap (fun p : Z * Job => Ref (VarX (Z.of_nat e) p.1 d))) in Hr2.
    rewrite <- enumerate_fst, <- list_fmap_compose. injection Hr2 as <-. left.
  - intros [j job] [Hj _]%elem_of_enumerate.
    rewrite item3_addVars3, decide_True by done. done.
Qed.

Lemma assigned_works_in e employee j job q qualification :
  staff data !! e = Some employee -> jobs data !! j = Some job ->
  d_qualifications data !! q = Some qualification ->
  ("If an employee is assigned to a job for a qualification, he must work for this job at least one day",
   quicksum ((fun d => Ref (VarX (Z.of_nat e) (Z.of_nat j) d)) <$> range (horizon data))
   [>=] Ref (VarY (Z.of_nat e) (Z.of_nat j) (Z.of_nat q))) ∈ m_constrs m.
Proof.
  intros He Hj Hq.
  destruct (build_model_OK data m Hm) as (obj & c1 & c2 & c3 & c4 & c5 & c6 & c7 & c8 &
    _ & _ & _ & _ & _ & _ & _ & Hc7 & _ & _ & _ & ->).
  rewrite !elem_of_app. do 7 right. left.
  destruct (enumerate_lookup _ _ _ He) as [Hin_e He'].
  destruct (enumerate_lookup _ _ _ Hj) as [Hin_j Hj'].
  destruct (enumerate_lookup _ _ _ Hq) as [Hin_q Hq'].
  destruct (for_OK_elem _ _ _ _ Hc7 Hin_e) as (r1 & Hr1 & Hsub1).
  destruct (for_OK_elem _ _ _ _ Hr1 Hin_j) as (r2 & Hr2 & Hsub2).
  destruct (for_OK_elem _ _ _ _ Hr2 Hin_q) as (r3 & Hr3 & Hsub3).
  apply Hsub1, Hsub2, Hsub3.
  rewrite (for_ext_map _ _ (fun d => [Ref (VarX (Z.of_nat e) (Z.of_nat j) d)])) in Hr3.
  - rewrite bind_singleton_fmap in Hr3. cbn in Hr3.
    rewrite item3_addVars3, decide_True in Hr3 by done. injection Hr3 as <-. left.
  - intros d Hd%elem_of_range. rewrite item3_addVars3, decide_True by done. done.
Qed.

Lemma staffed_days_in j job q qualification :
  jobs data !! j = Some job -> d_qualifications data !! q = Some qualification ->
  ("Staffed days of qualification <= number of days of work of the qualification",
   quicksum (enumerate (staff data) ≫= fun p =>
             range (horizon data) ≫= fun d =>
             [Mul (Ref (VarX p.1 (Z.of_nat j) d)) (Ref (VarY p.1 (Z.of_nat j) (Z.of_nat q)))])
   [<=] Num (default 0 (working_days_per_qualification job !! qualification)))
  ∈ m_constrs m.
Proof.
  intros Hj Hq.
  destruct (build_model_OK data m Hm) as (obj & c1 & c2 & c3 & c4 & c5 & c6 & c7 & c8 &
    _ & _ & _ & _ & _ & _ & _ & _ & Hc8 & _ & _ & ->).
  rewrite !elem_of_app. do 8 right.
  destruct (enumerate_lookup _ _ _ Hj) as [Hin_j Hj'].
  destruct (enumerate_lookup _ _ _ Hq) as [Hin_q Hq'].
  destruct (for_OK_elem _ _ _ _ Hc8 Hin_j) as (r1 & Hr1 & Hsub1).
  destruct (for_OK_elem _ _ _ _ Hr1 Hin_q) as (r2 & Hr2 & Hsub2).
  apply Hsub1, Hsub2.
  rewrite (for_ext_map _ _ (fun p => range (horizon data) ≫= fun d =>
             [Mul (Ref (VarX p.1 (Z.of_nat j) d)) (Ref (VarY p.1 (Z.of_nat j) (Z.of_nat q)))]))
    in Hr2.
  - injection Hr2 as <-. left.
  - intros [e employee] [He _]%elem_of_enumerate. apply for_ext_map.
    intros d Hd%elem_of_range. rewrite !item3_addVars3, !decide_True by done. done.
Qed.
End constraint_groups.

(** X1: in every feasible solution of the built model an employee is not
    assigned to any job under a qualification the employee does not hold. *)
Theorem unqualified_not_assigned `{World} (data : ProblemData) (m : Model) (s : Var -> Z)
    (e j q : nat) (employee : Employee) (job : Job) (qualification : string) :
  build_model data = OK m -> feasible m s ->
  staff data !! e = Some employee -> jobs data !! j = Some job ->
  d_qualifications data !! q = Some qualification ->
  qualification ∉ qualifications employee ->
  s (VarY (Z.of_nat e) (Z.of_nat j) (Z.of_nat q)) = 0.
Proof.
  intros Hm Hs He Hj Hq Hnot.
  pose proof (need_qualification_in data m Hm e employee j job q qualification He Hj Hq Hnot)
    as Hin.
  pose proof (feasible_holds _ _ _ _ Hs Hin) as Hc.
  unfold holds, holdsb in Hc. simpl in Hc. lia.
Qed.

Lemma unqualified_not_assigned_witness : idle_solution (VarY 0 0 1) = 0.
Proof.
  refine (@unqualified_not_assigned idle_world two_quals_data _ idle_solution
            0%nat 0%nat 1%nat (mkEmployee "Ann" ["A"] []) job_A "B" _ _ eq_refl eq_refl eq_refl _).
  - vm_compute. reflexivity.
  - apply feasibleb_feasible. vm_compute. reflexivity.
  - simpl. intros Hin. apply list_elem_of_singleton in Hin. discriminate Hin.
Defined.

(** X2: in every feasible solution an employee holds at most one
    qualification role on a job: the roles of (e, j) sum to at most 1, and two
    roles at 1 are the same role. *)
Theorem one_qualification_per_job `{World} (data : ProblemData) (m : Model) (s : Var -> Z)
    (e j : nat) (employee : Employee) (job : Job) :
  build_model data = OK m -> feasible m s ->
  staff data !! e = Some employee -> jobs data !! j = Some job ->
  sum_over (fun q => s (VarY (Z.of_nat e) (Z.of_nat j) q))
           (range (len (d_qualifications data))) <= 1 /\
  forall q1 q2,
    0 <= q1 < len (d_qualifications data) -> 0 <= q2 < len (d_qualifications data) ->
    s (VarY (Z.of_nat e) (Z.of_nat j) q1) = 1 ->
    s (VarY (Z.of_nat e) (Z.of_nat j) q2) = 1 -> q1 = q2.
Proof.
  intros Hm Hs He Hj.
  pose proof (feasible_holds _ _ _ _ Hs (one_qualification_in data m Hm e employee j job He Hj))
    as Hc.
  unfold holds, holdsb in Hc. cbn [rel lhs rhs] in Hc.
  rewrite eval_quicksum_refs in Hc. cbn [eval] in Hc. apply Z.leb_le in Hc.
  split; [exact Hc|]. intros q1 q2 Hq1 Hq2 H1 H2.
  destruct (decide (q1 = q2)) as [|Hne]; [done|exfalso].
  destruct (enumerate_lookup _ _ _ He) as [_ He'].
  destruct (enumerate_lookup _ _ _ Hj) as [_ Hj'].
  pose proof (sum_over_two_le (fun q => s (VarY (Z.of_nat e) (Z.of_nat j) q))
                (range (len (d_qualifications data))) q1 q2) as Htwo.
  cbv beta in Htwo. rewrite H1, H2 in Htwo.
  assert (1 + 1 <= 1); [|lia]. etransitivity; [apply Htwo|exact Hc]; try done.
  - apply NoDup_seqZ.
  - intros q Hq%elem_of_range. apply binary_nonneg, (feasible_binary m s); [done|].
    by apply (VarY_in_model data m Hm).
  - by apply elem_of_range.
  - by apply elem_of_range.
Qed.

Lemma one_qualification_per_job_witness :
  sum_over (fun q => many_quals_solution (VarY 0 0 q)) (range 11) <= 1.
Proof.
  refine (proj1 (@one_qualification_per_job many_quals_world many_quals_data _
                   many_quals_solution 0%nat 0%nat (mkEmployee "Ann" eleven_quals [])
                   (mkJob "J" 100 5 10 {[ "Q10" := 1 ]}) _ _ eq_refl eq_refl)).
  - vm_compute. reflexivity.
  - apply feasibleb_feasible. vm_compute. reflexivity.
Defined.

(** X3: in every feasible solution an employee works at most one job a day:
    the assignments of (e, d) sum to at most 1, and two jobs worked by e on
    day d are the same job. *)
Theorem one_job_per_day `{World} (data : ProblemData) (m : Model) (s : Var -> Z)
    (e : nat) (employee : Employee) (d : Z) :
  build_model data = OK m -> feasible m s ->
  staff data !! e = Some employee -> 0 <= d < horizon data ->
  sum_over (fun j => s (VarX (Z.of_nat e) j d)) (range (len (jobs data))) <= 1 /\
  forall j1 j2,
    0 <= j1 < len (jobs data) -> 0 <= j2 < len (jobs data) ->
    s (VarX (Z.of_nat e) j1 d) = 1 -> s (VarX (Z.of_nat e) j2 d) = 1 -> j1 = j2.
Proof.
  intros Hm Hs He Hd.
  pose proof (feasible_holds _ _ _ _ Hs (one_job_per_day_in data m Hm e employee d He Hd)) as Hc.
  unfold holds, holdsb in Hc. cbn [rel lhs rhs] in Hc.
  rewrite eval_quicksum_refs in Hc. cbn [eval] in Hc. apply Z.leb_le in Hc.
  split; [exact Hc|]. intros j1 j2 Hj1 Hj2 H1 H2.
  destruct (decide (j1 = j2)) as [|Hne]; [done|exfalso].
  destruct (enumerate_lookup _ _ _ He) as [_ He'].
  pose proof (sum_over_two_le (fun j => s (VarX (Z.of_nat e) j d))
                (range (len (jobs data))) j1 j2) as Htwo.
  cbv beta in Htwo. rewrite H1, H2 in Htwo.
  assert (1 + 1 <= 1); [|lia]. etransitivity; [apply Htwo|exact Hc]; try done.
  - apply NoDup_seqZ.
  - intros j Hj%elem_of_range. apply binary_nonneg, (feasible_binary m s); [done|].
    by apply (VarX_in_model data m Hm).
  - by apply elem_of_range.
  - by apply elem_of_range.
Qed.

Lemma one_job_per_day_witness :
  sum_over (fun j => many_quals_solution (VarX 0 j 0)) (range 1) <= 1.
Proof.
  refine (proj1 (@one_job_per_day many_quals_world many_quals_data _
                   many_quals_solution 0%nat (mkEmployee "Ann" eleven_quals []) 0
                   _ _ eq_refl _)).
  - vm_compute. reflexivity.
  - apply feasibleb_feasible. vm_compute. reflexivity.
  - simpl. lia.
Defined.

(** X4: in every feasible solution an employee assigned to a job under some
    qualification works that job on at least one day of the horizon. *)
Theorem assigned_employee_works `{World} (data : ProblemData) (m : Model) (s : Var -> Z)
    (e j q : nat) (employee : Employee) (job : Job) (qualification : string) :
  build_model data = OK m -> feasible m s ->
  staff data !! e = Some employee -> jobs data !! j = Some job ->
  d_qualifications data !! q = Some qualification ->
  s (VarY (Z.of_nat e) (Z.of_nat j) (Z.of_nat q)) = 1 ->
  exists d, 0 <= d < horizon data /\ s (VarX (Z.of_nat e) (Z.of_nat j) d) = 1.
Proof.
  intros Hm Hs He Hj Hq HY.
  pose proof (feasible_holds _ _ _ _ Hs
                (assigned_works_in data m Hm e employee j job q qualification He Hj Hq)) as Hc.
  unfold holds, holdsb in Hc. cbn [rel lhs rhs] in Hc.
  rewrite eval_quicksum_refs in Hc. cbn [eval] in Hc. rewrite HY in Hc.
  destruct (enumerate_lookup _ _ _ He) as [_ He'].
  destruct (enumerate_lookup _ _ _ Hj) as [_ Hj'].
  destruct (sum_over_positive_elem (fun d => s (VarX (Z.of_nat e) (Z.of_nat j) d))
              (range (horizon data))) as (d & Hd & HX).
  - intros d Hd%elem_of_range. apply (feasible_binary m s); [done|].
    by apply (VarX_in_model data m Hm).
  - lia.
  - exists d. apply elem_of_range in Hd. done.
Qed.

Lemma assigned_employee_works_witness :
  exists d, 0 <= d < 1 /\ many_quals_solution (VarX 0 0 d) = 1.
Proof.
  refine (@assigned_employee_works many_quals_world many_quals_data _
            many_quals_solution 0%nat 0%nat 10%nat (mkEmployee "Ann" eleven_quals [])
            (mkJob "J" 100 5 10 {[ "Q10" := 1 ]}) "Q10" _ _ eq_refl eq_refl eq_refl eq_refl).
  - vm_compute. reflexivity.
  - apply feasibleb_feasible. vm_compute. reflexivity.
Defined.

Lemma staffed_days_holds `{World} (data : ProblemData) (m : Model) (s : Var -> Z)
    (j q : nat) (job : Job) (qualification : string) :
  build_model data = OK m -> feasible m s ->
  jobs data !! j = Some job -> d_qualifications data !! q = Some qualification ->
  sum_over (fun e => sum_over (fun d => s (VarX e (Z.of_nat j) d) *
                                        s (VarY e (Z.of_nat j) (Z.of_nat q)))
                              (range (horizon data)))
           (range (len (staff data)))
  <= default 0 (working_days_per_qualification job !! qualification).
Proof.
  intros Hm Hs Hj Hq.
  pose proof (feasible_holds _ _ _ _ Hs
                (staffed_days_in data m Hm j job q qualification Hj Hq)) as Hc.
  unfold holds, holdsb in Hc. cbn [rel lhs rhs] in Hc.
  rewrite eval_quicksum, sum_over_bind in Hc. cbn [eval] in Hc. apply Z.leb_le in Hc.
  rewrite <- (sum_over_enumerate_fst
                (fun e => sum_over (fun d => s (VarX e (Z.of_nat j) d) *
                                             s (VarY e (Z.of_nat j) (Z.of_nat q)))
                                   (range (horizon data)))).
  etransitivity; [|exact Hc]. apply Z.eq_le_incl, sum_over_ext.
  intros p _. rewrite sum_over_bind. apply sum_over_ext. intros d _.
  unfold sum_over. simpl. lia.
Qed.

(** X5: in every feasible solution the employee-days worked on a job under a
    qualification, summed over employees and days, do not exceed the job's
    requirement for that qualification, which is 0 when the job records none. *)
Theorem staffed_days_capped `{World} (data : ProblemData) (m : Model) (s : Var -> Z)
    (j q : nat) (job : Job) (qualification : string) :
  build_model data = OK m -> feasible m s ->
  jobs data !! j = Some job -> d_qualifications data !! q = Some qualification ->
  sum_over (fun e => sum_over (fun d => s (VarX e (Z.of_nat j) d) *
                                        s (VarY e (Z.of_nat j) (Z.of_nat q)))
                              (range (horizon data)))
           (range (len (staff data)))
  <= default 0 (working_days_per_qualification job !! qualification) /\
  (working_days_per_qualification job !! qualification = None ->
   forall e d, 0 <= e < len (staff data) -> 0 <= d < horizon data ->
     s (VarX e (Z.of_nat j) d) * s (VarY e (Z.of_nat j) (Z.of_nat q)) = 0).
Proof.
  intros Hm Hs Hj Hq.
  pose proof (staffed_days_holds data m s j q job qualification Hm Hs Hj Hq) as Hcap.
  split; [exact Hcap|]. intros Hnone e d He Hd. rewrite Hnone in Hcap. simpl in Hcap.
  destruct (enumerate_lookup _ _ _ Hj) as [_ Hj'].
  destruct (enumerate_lookup _ _ _ Hq) as [_ Hq'].
  assert (Hprod : forall e' d', 0 <= e' < len (staff data) -> 0 <= d' < horizon data ->
            0 <= s (VarX e' (Z.of_nat j) d') * s (VarY e' (Z.of_nat j) (Z.of_nat q))).
  { intros e' d' He' Hd'.
    pose proof (feasible_binary m s _ Hs (VarX_in_model data m Hm e' (Z.of_nat j) d' He' Hj' Hd')).
    pose proof (feasible_binary m s _ Hs
                  (VarY_in_model data m Hm e' (Z.of_nat j) (Z.of_nat q) He' Hj' Hq')).
    unfold binary in *. nia. }
  pose proof (sum_over_elem_le
                (fun d => s (VarX e (Z.of_nat j) d) * s (VarY e (Z.of_nat j) (Z.of_nat q)))
                (range (horizon data)) d) as Hinner.
  pose proof (sum_over_elem_le
                (fun e => sum_over (fun d => s (VarX e (Z.of_nat j) d) *
                                             s (VarY e (Z.of_nat j) (Z.of_nat q)))
                                   (range (horizon data)))
                (range (len (staff data))) e) as Houter.
  cbv beta in Hinner, Houter.
  specialize (Hinner ltac:(intros d' Hd'%elem_of_range; by apply Hprod)
                     ltac:(by apply elem_of_range)).
  specialize (Houter ltac:(intros e' He'%elem_of_range; apply sum_over_nonneg;
                           intros d' Hd'%elem_of_range; by apply Hprod)
                     ltac:(by apply elem_of_range)).
  specialize (Hprod e d He Hd). lia.
Qed.

Lemma staffed_days_capped_witness :
  sum_over (fun e => sum_over (fun d => many_quals_solution (VarX e 0 d) *
                                        many_quals_solution (VarY e 0 10))
                              (range 1)) (range 1) <= 1.
Proof.
  refine (proj1 (@staffed_days_capped many_quals_world many_quals_data _
                   many_quals_solution 0%nat 10%nat
                   (mkJob "J" 100 5 10 {[ "Q10" := 1 ]}) "Q10" _ _ eq_refl eq_refl)).
  - vm_compute. reflexivity.
  - apply feasibleb_feasible. vm_compute. reflexivity.
Defined.

(** X6: in every feasible solution nobody is assigned to a job under a
    qualification for which the job requires no work (a requirement that is
    absent, zero or negative): the assigned employee would have to work a day
    on the job, and that day would exceed the cap. *)
Theorem unrequired_qualification_unassigned `{World} (data : ProblemData) (m : Model)
    (s : Var -> Z) (e j q : nat) (employee : Employee) (job : Job) (qualification : string) :
  build_model data = OK m -> feasible m s ->
  staff data !! e = Some employee -> jobs data !! j = Some job ->
  d_qualifications data !! q = Some qualification ->
  default 0 (working_days_per_qualification job !! qualification) <= 0 ->
  s (VarY (Z.of_nat e) (Z.of_nat j) (Z.of_nat q)) = 0.
Proof.
  intros Hm Hs He Hj Hq Hreq.
  destruct (enumerate_lookup _ _ _ He) as [_ He'].
  destruct (enumerate_lookup _ _ _ Hj) as [_ Hj'].
  destruct (enumerate_lookup _ _ _ Hq) as [_ Hq'].
  destruct (feasible_binary m s _ Hs
              (VarY_in_model data m Hm _ _ _ He' Hj' Hq')) as [HY | HY]; [exact HY|exfalso].
  pose proof (feasible_holds _ _ _ _ Hs
                (assigned_works_in data m Hm e employee j job q qualification He Hj Hq)) as Hc.
  unfold holds, holdsb in Hc. cbn [rel lhs rhs] in Hc.
  rewrite eval_quicksum_refs in Hc. cbn [eval] in Hc. rewrite HY in Hc.
  destruct (sum_over_positive_elem (fun d => s (VarX (Z.of_nat e) (Z.of_nat j) d))
              (range (horizon data))) as (d & Hd%elem_of_range & HX).
  { intros d Hd%elem_of_range. apply (feasible_binary m s); [done|].
    by apply (VarX_in_model data m Hm). }
  { lia. }
  pose proof (staffed_days_holds data m s j q job qualification Hm Hs Hj Hq) as Hcap.
  assert (Hprod : forall e' d', 0 <= e' < len (staff data) -> 0 <= d' < horizon data ->
            0 <= s (VarX e' (Z.of_nat j) d') * s (VarY e' (Z.of_nat j) (Z.of_nat q))).
  { intros e' d' He'' Hd'.
    pose proof (feasible_binary m s _ Hs (VarX_in_model data m Hm e' (Z.of_nat j) d' He'' Hj' Hd')).
    pose proof (feasible_binary m s _ Hs
                  (VarY_in_model data m Hm e' (Z.of_nat j) (Z.of_nat q) He'' Hj' Hq')).
    unfold binary in *. nia. }
  pose proof (sum_over_elem_le
                (fun d => s (VarX (Z.of_nat e) (Z.of_nat j) d) *
                          s (VarY (Z.of_nat e) (Z.of_nat j) (Z.of_nat q)))
                (range (horizon data)) d) as Hinner.
  pose proof (sum_over_elem_le
                (fun e => sum_over (fun d => s (VarX e (Z.of_nat j) d) *
                                             s (VarY e (Z.of_nat j) (Z.of_nat q)))
                                   (range (horizon data)))
                (range (len (staff data))) (Z.of_nat e)) as Houter.
  cbv beta in Hinner, Houter.
  specialize (Hinner ltac:(intros d' Hd'%elem_of_range; by apply Hprod)
                     ltac:(by apply elem_of_range)).
  specialize (Houter ltac:(intros e' He''%elem_of_range; apply sum_over_nonneg;
                           intros d' Hd'%elem_of_range; by apply Hprod)
                     ltac:(by apply elem_of_range)).
  assert (Hone : s (VarX (Z.of_nat e) (Z.of_nat j) d) *
                 s (VarY (Z.of_nat e) (Z.of_nat j) (Z.of_nat q)) = 1).
  { rewrite HX, HY. reflexivity. }
  lia.
Qed.

Lemma unrequired_qualification_unassigned_witness : many_quals_solution (VarY 0 0 3) = 0.
Proof.
  refine (@unrequired_qualification_unassigned many_quals_world many_quals_data _
            many_quals_solution 0%nat 0%nat 3%nat (mkEmployee "Ann" eleven_quals [])
            (mkJob "J" 100 5 10 {[ "Q10" := 1 ]}) "Q3" _ _ eq_refl eq_refl eq_refl _).
  - vm_compute. reflexivity.
  - apply feasibleb_feasible. vm_compute. reflexivity.
  - vm_compute. discriminate.
Defined.

(** * The objective *)

Lemma enumerate_functional {A} (l : list A) (i : Z) (x y : A) :
  (i, x) ∈ enumerate l -> (i, y) ∈ enumerate l -> x = y.
Proof. intros [_ Hx]%elem_of_enumerate [_ Hy]%elem_of_enumerate. congruence. Qed.

Lemma profits_jobs_item (data : ProblemData) (j : Z) (job : Job) (day : Z) :
  (j, job) ∈ enumerate (jobs data) -> day ∈ range (horizon data) ->
  dict_item (profits_jobs_of data) j day = OK (get_profit job day).
Proof.
  intros Hj Hd. unfold dict_item, profits_jobs_of.
  rewrite (elem_of_list_to_map_1' _ (j, day) (get_profit job day)); [done| |].
  - intros y Hy. apply list_elem_of_bind in Hy as ([j' job'] & Hy & Hj').
    apply list_elem_of_bind in Hy as (d' & Hy & Hd').
    apply list_elem_of_singleton in Hy. simplify_eq.
    by rewrite (enumerate_functional _ _ _ _ Hj Hj').
  - apply list_elem_of_bind. exists (j, job). split; [|done].
    apply list_elem_of_bind. exists day. split; [left|done].
Qed.

Lemma objective_terms `{World} (data : ProblemData) (m : Model) :
  build_model data = OK m ->
  m_objective m =
  quicksum (enumerate (jobs data) ≫= fun p =>
            range (horizon data) ≫= fun d =>
            [Mul (Num (get_profit p.2 d)) (Ref (VarZ p.1 d))]).
Proof.
  intros Hm.
  destruct (build_model_OK data m Hm) as (obj & c1 & c2 & c3 & c4 & c5 & c6 & c7 & c8 &
    Hobj & _ & _ & _ & _ & _ & _ & _ & _ & _ & -> & _).
  unfold objective_of in Hobj.
  rewrite (for_ext_map _ _ (fun p => range (horizon data) ≫= fun d =>
             [Mul (Num (get_profit p.2 d)) (Ref (VarZ p.1 d))])) in Hobj.
  - by injection Hobj as <-.
  - intros [j job] Hj. apply for_ext_map. intros d Hd.
    rewrite (profits_jobs_item data j job d Hj Hd).
    apply elem_of_enumerate in Hj as [Hj _]. apply elem_of_range in Hd.
    cbn. rewrite item2_addVars2, decide_True by done. done.
Qed.

Lemma sum_over_select (p z : Z -> Z) (l : list Z) (d : Z) :
  NoDup l -> d ∈ l -> z d = 1 -> (forall d', d' ∈ l -> d' <> d -> z d' = 0) ->
  sum_over (fun d' => p d' * z d') l = p d.
Proof.
  induction l as [|a l IH]; intros Hnd Hd Hz Hother; [inversion Hd|].
  apply NoDup_cons in Hnd as [Ha Hnd]. unfold sum_over in *. simpl.
  apply elem_of_cons in Hd as [-> | Hd].
  - rewrite Hz.
    assert (Hzero : foldr (fun a0 acc => p a0 * z a0 + acc) 0 l = 0).
    { clear IH Hnd. induction l as [|b l IHl]; [done|]. simpl.
      rewrite (Hother b) by (try (right; left); intros ->; apply Ha; left).
      rewrite IHl; [lia| |].
      - intros Hin. apply Ha. by right.
      - intros d' Hd' Hne. apply Hother; [|done].
        apply elem_of_cons in Hd' as [->|Hd']; [left|do 2 right; done]. }
    rewrite Hzero. lia.
  - rewrite (Hother a) by (try left; intros ->; done).
    rewrite IH; [lia|done..|]. intros d' Hd' Hne. apply Hother; [by right|done].
Qed.

Lemma objective_value `{World} (data : ProblemData) (m : Model) (s : Var -> Z) :
  build_model data = OK m ->
  eval s (m_objective m) =
  sum_over (fun p => sum_over (fun d => get_profit p.2 d * s (VarZ p.1 d))
                              (range (horizon data)))
           (enumerate (jobs data)).
Proof.
  intros Hm. rewrite (objective_terms data m Hm), eval_quicksum, sum_over_bind.
  apply sum_over_ext. intros p _. rewrite sum_over_bind. apply sum_over_ext.
  intros d _. unfold sum_over. simpl. lia.
Qed.

Lemma job_contribution `{World} (data : ProblemData) (m : Model) (s : Var -> Z)
    (j : nat) (job : Job) :
  build_model data = OK m -> feasible m s -> jobs data !! j = Some job ->
  exists d, 0 <= d < horizon data /\ s (VarZ (Z.of_nat j) d) = 1 /\
    sum_over (fun d' => get_profit job d' * s (VarZ (Z.of_nat j) d'))
             (range (horizon data)) = get_profit job d.
Proof.
  intros Hm Hs Hj.
  pose proof (feasible_holds _ _ _ _ Hs (realized_once_in data m j job Hm Hj)) as Hc.
  unfold holds, holdsb in Hc. cbn [rel lhs rhs] in Hc.
  rewrite eval_quicksum_refs in Hc. cbn [eval] in Hc. apply Z.eqb_eq in Hc.
  destruct (enumerate_lookup _ _ _ Hj) as [_ Hj'].
  destruct (sum_over_binary_one (fun d => s (VarZ (Z.of_nat j) d)) (range (horizon data)))
    as (d & Hd & Hsd & Huniq).
  - apply NoDup_seqZ.
  - intros d Hd%elem_of_range. apply (feasible_binary m s); [done|].
    by apply (VarZ_in_model data m Hm).
  - exact Hc.
  - exists d. split; [by apply elem_of_range|]. split; [exact Hsd|].
    apply (sum_over_select (fun d' => get_profit job d')
                           (fun d' => s (VarZ (Z.of_nat j) d'))); [apply NoDup_seqZ|done..|].
    intros d' Hd' Hne.
    destruct (feasible_binary m s (VarZ (Z.of_nat j) d') Hs) as [Hz | Hz]; [|done|].
    + apply elem_of_range in Hd'. by apply (VarZ_in_model data m Hm).
    + exfalso. apply Hne. by apply Huniq.
Qed.

(** X7: the objective of the built model is the sum, over jobs and days, of
    get_profit(job, day) * Z[job, day]; in a feasible solution each job
    contributes exactly its profit at the one day on which it is complete. *)
Theorem objective_is_profit_at_completion `{World} (data : ProblemData) (m : Model) :
  build_model data = OK m ->
  (forall s,
     eval s (m_objective m) =
     sum_over (fun p => sum_over (fun d => get_profit p.2 d * s (VarZ p.1 d))
                                 (range (horizon data)))
              (enumerate (jobs data))) /\
  (forall s (j : nat) (job : Job),
     feasible m s -> jobs data !! j = Some job ->
     exists d, 0 <= d < horizon data /\ s (VarZ (Z.of_nat j) d) = 1 /\
       sum_over (fun d' => get_profit job d' * s (VarZ (Z.of_nat j) d'))
                (range (horizon data)) = get_profit job d).
Proof.
  intros Hm. split.
  - intros s. by apply objective_value.
  - intros s j job Hs Hj. by apply (job_contribution data m s j job).
Qed.

Lemma objective_is_profit_at_completion_witness :
  exists d, 0 <= d < 1 /\ idle_solution (VarZ 0 d) = 1 /\
    sum_over (fun d' => get_profit job_A d' * idle_solution (VarZ 0 d')) (range 1) =
    get_profit job_A d.
Proof.
  refine (proj2 (@objective_is_profit_at_completion idle_world solo_data _ _)
            idle_solution 0%nat job_A _ eq_refl).
  - vm_compute. reflexivity.
  - apply feasibleb_feasible. vm_compute. reflexivity.
Defined.

Lemma get_profit_le_gain (project : Job) (d : Z) :
  0 <= gain project -> 0 <= daily_penalty project ->
  0 <= get_profit project d <= gain project.
Proof.
  intros Hg Hp. unfold get_profit.
  destruct (Z.geb_spec (due_date project) d); [lia|]. nia.
Qed.

Lemma sum_over_le {A} (f g : A -> Z) (l : list A) :
  (forall a, a ∈ l -> f a <= g a) -> sum_over f l <= sum_over g l.
Proof.
  induction l as [|a l IH]; intros Hfg; unfold sum_over in *; simpl; [lia|].
  specialize (Hfg a ltac:(left)) as Ha.
  specialize (IH ltac:(intros b Hb; apply Hfg; by right)). lia.
Qed.

(** X13: when no job has a negative gain or a negative penalty, the objective
    value of a feasible solution is at most the sum of the gains of the jobs,
    and it is not negative. *)
Theorem objective_at_most_total_gain `{World} (data : ProblemData) (m : Model) (s : Var -> Z) :
  build_model data = OK m -> feasible m s ->
  (forall job, job ∈ jobs data -> 0 <= gain job /\ 0 <= daily_penalty job) ->
  0 <= eval s (m_objective m) <= sum_over gain (jobs data).
Proof.
  intros Hm Hs Hjobs. rewrite (objective_value data m s Hm).
  assert (Hsnd : sum_over gain (jobs data) = sum_over (fun p => gain p.2) (enumerate (jobs data))).
  { rewrite <- (sum_over_fmap gain snd). f_equal. unfold enumerate.
    apply list_eq. intros i. rewrite list_lookup_fmap, list_lookup_imap.
    by destruct (jobs data !! i). }
  rewrite Hsnd.
  assert (Heach : forall p, p ∈ enumerate (jobs data) ->
            0 <= sum_over (fun d => get_profit p.2 d * s (VarZ p.1 d)) (range (horizon data))
              <= gain p.2).
  { intros [j job] Hp. apply elem_of_enumerate in Hp as [Hj Hlook].
    destruct (job_contribution data m s (Z.to_nat j) job Hm Hs Hlook) as (d & _ & _ & Hsum).
    rewrite Z2Nat.id in Hsum by lia. cbn [fst snd]. rewrite Hsum.
    apply get_profit_le_gain; apply Hjobs; by apply list_elem_of_lookup_2 in Hlook. }
  split.
  - apply sum_over_nonneg. intros p Hp. by apply Heach.
  - apply sum_over_le. intros p Hp. by apply Heach.
Qed.

Lemma objective_at_most_total_gain_witness :
  0 <= eval idle_solution (Add (Mul (Num 100) (Ref (VarZ 0 0))) (Num 0)) <= 100.
Proof.
  refine (@objective_at_most_total_gain idle_world solo_data
            (mkModel _ (Add (Mul (Num 100) (Ref (VarZ 0 0))) (Num 0)) _) idle_solution _ _ _).
  - vm_compute. reflexivity.
  - apply feasibleb_feasible. vm_compute. reflexivity.
  - intros job Hjob. apply list_elem_of_singleton in Hjob. subst job. simpl. lia.
Defined.

(** * When the model is built *)

Section built_model_exists.
Context `{World}.
Variable data : ProblemData.
Hypothesis vacations_in_range :
  forall employee d, employee ∈ staff data -> d ∈ vacations employee ->
    0 <= d < horizon data.
Hypothesis condition_true : forall o, cond_truth o = OK true.

Let X := addVars3 (len (staff data)) (len (jobs data)) (horizon data) VarX.
Let Y := addVars3 (len (staff data)) (len (jobs data)) (len (d_qualifications data)) VarY.
Let Z_ := addVars2 (len (jobs data)) (horizon data) VarZ.

Lemma no_work_on_vacation_total : exists c, constr_no_work_on_vacation data X = OK c.
Proof.
  apply for_total. intros [e employee] He. apply for_total. intros [j job] Hj.
  apply for_total. intros d Hd.
  assert (Hrange : 0 <= d < horizon data).
  { apply (vacations_in_range employee); [|done].
    apply elem_of_enumerate in He as [_ He]. by apply list_elem_of_lookup_2 in He. }
  unfold X. in_range. by eexists.
Qed.

Lemma realized_condition_total j job d :
  (j, job) ∈ enumerate (jobs data) -> d ∈ range (horizon data) ->
  exists cond, realized_condition data X Y j job d = OK cond.
Proof.
  intros Hj Hd. unfold realized_condition.
  destruct (for_total (enumerate (d_qualifications data))
              (fun '(qualification_index, qualification) =>
                 terms ← for_ (enumerate (staff data)) (fun '(employee_index, _) =>
                            for_ (range (d + 1)) (fun day_2 =>
                              y ← item3 Y employee_index j qualification_index;
                              x ← item3 X employee_index j day_2;
                              yield (Mul y x)));
                 yield (OConstr (quicksum terms [==]
                                 Num (default 0 (working_days_per_qualification job !! qualification))))))
    as [staffed ->].
  { intros [q qual] Hq.
    destruct (for_total (enumerate (staff data)) (fun '(employee_index, _) =>
                for_ (range (d + 1)) (fun day_2 =>
                  y ← item3 Y employee_index j q;
                  x ← item3 X employee_index j day_2;
                  yield (Mul y x)))) as [terms ->]; [|by eexists].
    intros [e employee] He. apply for_total. intros d2 Hd2. unfold X, Y. in_range.
    by eexists. }
  destruct (for_total (enumerate (staff data)) (fun '(employee_index, _) =>
              x ← item3 X employee_index j d; yield x)) as [xs ->]; [|by eexists].
  intros [e employee] He. unfold X. in_range. by eexists.
Qed.

Lemma realized_total : exists c, constr_realized data X Y Z_ = OK c.
Proof.
  apply for_total. intros [j job] Hj. apply for_total. intros d Hd.
  destruct (realized_condition_total j job d Hj Hd) as [cond ->].
  cbn. rewrite condition_true. unfold Z_. in_range. by eexists.
Qed.

Lemma realized_once_total : exists c, constr_realized_once data Z_ = OK c.
Proof.
  apply for_total. intros [j job] Hj.
  destruct (for_total (range (horizon data)) (fun day => z ← item2 Z_ j day; yield z))
    as [zs ->]; [|by eexists].
  intros d Hd. unfold Z_. in_range. by eexists.
Qed.

Lemma assigned_works_total : exists c, constr_assigned_works data X Y = OK c.
Proof.
  apply for_total. intros [e employee] He. apply for_total. intros [j job] Hj.
  apply for_total. intros [q qual] Hq.
  destruct (for_total (range (horizon data)) (fun day => x ← item3 X e j day; yield x))
    as [xs ->].
  { intros d Hd. unfold X. in_range. by eexists. }
  unfold Y. in_range. by eexists.
Qed.

Lemma staffed_days_total : exists c, constr_staffed_days data X Y = OK c.
Proof.
  apply for_total. intros [j job] Hj. apply for_total. intros [q qual] Hq.
  destruct (for_total (enumerate (staff data)) (fun '(employee_index, _) =>
              for_ (range (horizon data)) (fun day =>
                x ← item3 X employee_index j day;
                y ← item3 Y employee_index j q;
                yield (Mul x y)))) as [terms ->]; [|by eexists].
  intros [e employee] He. apply for_total. intros d Hd. unfold X, Y. in_range. by eexists.
Qed.

Lemma build_model_total : exists m, build_model data = OK m.
Proof.
  unfold build_model. fold X Y Z_.
  destruct (objective_total data) as [obj Hobj]. fold Z_ in Hobj. rewrite Hobj.
  destruct (need_qualification_total data) as [c1 Hc1]. fold Y in Hc1. rewrite Hc1.
  destruct (one_qualification_total data) as [c2 Hc2]. fold Y in Hc2. rewrite Hc2.
  destruct (one_job_per_day_total data) as [c3 Hc3]. fold X in Hc3. rewrite Hc3.
  destruct no_work_on_vacation_total as [c4 ->].
  destruct realized_total as [c5 ->].
  destruct realized_once_total as [c6 ->].
  destruct assigned_works_total as [c7 ->].
  destruct staffed_days_total as [c8 ->].
  by eexists.
Qed.
End built_model_exists.

Lemma report_var_prints (data : ProblemData) (v : Var) (x : Q) (ev : event) :
  ev ∈ trace (report_var data v x) -> exists l, ev = EPrint l.
Proof.
  unfold report_var, print, emit, lift, mbind, io_bind, mret, io_ret. cbn.
  repeat case_match; cbn; intros Hin; apply list_elem_of_In in Hin; simpl in Hin;
    intuition eauto.
Qed.

Lemma for_each_prints {A} (l : list A) (body : A -> io unit) (ev : event) :
  (forall a ev', ev' ∈ trace (body a) -> exists l', ev' = EPrint l') ->
  ev ∈ trace (for_each l body) -> exists l', ev = EPrint l'.
Proof.
  intros Hbody. induction l as [|a l IH]; cbn [for_each].
  - intros Hin. inversion Hin.
  - unfold mbind, io_bind. destruct (outcome (body a)); cbn.
    + intros [Hin | Hin]%elem_of_app; [by apply (Hbody a)|by apply IH].
    + apply Hbody.
Qed.

Lemma report_prints (data : ProblemData) (m : Model) (sol : Solved) (ev : event) :
  ev ∈ trace (report data m sol) -> exists l, ev = EPrint l.
Proof.
  unfold report. destruct (s_status sol); [|intros Hin; inversion Hin..].
  unfold mbind, io_bind, print, emit. cbn.
  intros [-> | Hin]%elem_of_cons; [by eexists|].
  destruct (outcome (for_each _ _)); cbn in Hin.
  - apply elem_of_app in Hin as [Hin | Hin].
    + eapply for_each_prints; [|exact Hin]. intros v ev'. apply report_var_prints.
    + apply list_elem_of_singleton in Hin. by eexists.
  - rewrite ?app_nil_r in Hin.
    eapply for_each_prints; [|exact Hin]. intros v ev'. apply report_var_prints.
Qed.

(** X8: when every vacation day of every employee lies in [0, horizon) and
    the condition object of constraint 5 is true, no lookup fails: the model
    is built and the engine is called, once and before anything is printed. *)
Theorem model_is_built `{World} (data : ProblemData) :
  (forall employee d, employee ∈ staff data -> d ∈ vacations employee ->
     0 <= d < horizon data) ->
  (forall o, cond_truth o = OK true) ->
  exists m rest, build_model data = OK m /\
    trace (solve_problem data) = EOptimize :: rest /\
    forall ev, ev ∈ rest -> exists l, ev = EPrint l.
Proof.
  intros Hvac Hcond. destruct (build_model_total data Hvac Hcond) as [m Hm].
  exists m, (trace (report data m (optimize m))). split; [exact Hm|].
  rewrite (solve_problem_built data m Hm). split; [reflexivity|].
  intros ev. apply report_prints.
Qed.

Lemma model_is_built_witness :
  exists m rest, @build_model idle_world vacation_data = OK m /\
    trace (@solve_problem idle_world vacation_data) = EOptimize :: rest /\
    forall ev, ev ∈ rest -> exists l, ev = EPrint l.
Proof.
  apply (@model_is_built idle_world vacation_data).
  - intros employee d Hemp Hd. apply list_elem_of_singleton in Hemp. subst employee.
    apply list_elem_of_singleton in Hd. subst d. simpl. lia.
  - reflexivity.
Defined.

(** * Further properties of the solution interpreter *)

(** X9: when the engine does not report an optimal solution, nothing is
    printed: the only effect of solve_problem is the call of the engine, and
    the built model is returned. *)
Theorem non_optimal_prints_nothing `{World} (data : ProblemData) (m : Model) :
  build_model data = OK m -> s_status (optimize m) <> OPTIMAL ->
  solve_problem data = IO [EOptimize] (OK m).
Proof.
  intros Hm Hstatus. rewrite (solve_problem_built data m Hm). unfold report.
  destruct (s_status (optimize m)); [done|reflexivity..].
Qed.

Lemma non_optimal_prints_nothing_witness :
  trace (@solve_problem infeasible_world two_day_data) = [EOptimize].
Proof.
  refine (f_equal trace (@non_optimal_prints_nothing infeasible_world two_day_data _ _ _)).
  - vm_compute. reflexivity.
  - discriminate.
Defined.

Lemma str_two_digits (z : Z) :
  10 <= z <= 99 ->
  exists c1 c2, str z = String c1 (String c2 "") /\ int c1 = OK (z / 10).
Proof.
  intros Hz.
  assert (Hall : forallb tens_first (seqZ 10 90) = true) by (vm_compute; reflexivity).
  rewrite forallb_forall in Hall. specialize (Hall z).
  assert (Hin : In z (seqZ 10 90)) by (apply list_elem_of_In, elem_of_seqZ; lia).
  specialize (Hall Hin). unfold tens_first in Hall.
  destruct (str z) as [|c1 [|c2 [|]]]; try discriminate.
  destruct (int c1) as [t|] eqn:Hint; [|discriminate].
  apply Z.eqb_eq in Hall. subst t. by exists c1, c2.
Qed.

Lemma name_X_long_day e j d :
  0 <= e <= 9 -> 0 <= j <= 9 -> 10 <= d <= 99 ->
  str_getitem (varName (VarX e j d)) 0 = OK "X"%char /\
  index_at (varName (VarX e j d)) 2 = OK e /\
  index_at (varName (VarX e j d)) 4 = OK j /\
  index_at (varName (VarX e j d)) 6 = OK (d / 10).
Proof.
  intros He Hj Hd.
  destruct (str_digit e He) as (ce & Hse & Hie).
  destruct (str_digit j Hj) as (cj & Hsj & Hij).
  destruct (str_two_digits d Hd) as (c1 & c2 & Hsd & Hid).
  unfold varName. rewrite Hse, Hsj, Hsd. rewrite <- Hie, <- Hij, <- Hid.
  repeat split; reflexivity.
Qed.

Lemma name_Z_long_day j d :
  0 <= j <= 9 -> 10 <= d <= 99 ->
  str_getitem (varName (VarZ j d)) 0 = OK "Z"%char /\
  index_at (varName (VarZ j d)) 2 = OK j /\
  index_at (varName (VarZ j d)) 4 = OK (d / 10).
Proof.
  intros Hj Hd.
  destruct (str_digit j Hj) as (cj & Hsj & Hij).
  destruct (str_two_digits d Hd) as (c1 & c2 & Hsd & Hid).
  unfold varName. rewrite Hsj, Hsd. rewrite <- Hij, <- Hid.
  repeat split; reflexivity.
Qed.

(** X10: for single-digit employee and job indices and a day between 10 and
    99, the interpreter reports the tens digit of the day in place of the
    day, both for a work assignment and for a completion. *)
Theorem two_digit_day_reported_as_tens (data : ProblemData) (e j d : Z)
    (employee : Employee) (job : Job) :
  0 <= e <= 9 -> 0 <= j <= 9 -> 10 <= d <= 99 ->
  staff data !! Z.to_nat e = Some employee -> jobs data !! Z.to_nat j = Some job ->
  report_var data (VarX e j d) 1 = print (LWorks (e_name employee) (j_name job) (d / 10)) /\
  report_var data (VarZ j d) 1 = print (LFinished (j_name job) (d / 10)) /\
  d / 10 <> d.
Proof.
  intros He Hj Hd Hemp Hjob. split; [|split].
  - unfold report_var.
    destruct (name_X_long_day e j d He Hj Hd) as (-> & -> & -> & ->).
    cbn -[list_getitem Z.div].
    rewrite (list_getitem_lookup _ _ _ (proj1 He) Hemp).
    rewrite (list_getitem_lookup _ _ _ (proj1 Hj) Hjob). reflexivity.
  - unfold report_var.
    destruct (name_Z_long_day j d Hj Hd) as (-> & -> & ->).
    cbn -[list_getitem Z.div].
    rewrite (list_getitem_lookup _ _ _ (proj1 Hj) Hjob). reflexivity.
  - pose proof (Z.div_lt d 10). lia.
Qed.

Lemma two_digit_day_reported_as_tens_witness :
  report_var solo_data (VarX 0 0 42) 1 = print (LWorks "Ann" "J" 4).
Proof.
  apply (proj1 (two_digit_day_reported_as_tens solo_data 0 0 42 (mkEmployee "Ann" ["A"] []) job_A
                  ltac:(lia) ltac:(lia) ltac:(lia) eq_refl eq_refl)).
Defined.

Lemma name_X_long_employee e j d :
  10 <= e <= 99 ->
  str_getitem (varName (VarX e j d)) 0 = OK "X"%char /\
  index_at (varName (VarX e j d)) 2 = OK (e / 10) /\
  index_at (varName (VarX e j d)) 4 =
  Err (ValueError "invalid literal for int() with base 10: ','").
Proof.
  intros He. destruct (str_two_digits e He) as (c1 & c2 & Hse & Hie).
  unfold varName. rewrite Hse. rewrite <- Hie. repeat split; reflexivity.
Qed.

Lemma name_Y_long_employee e j q :
  10 <= e <= 99 ->
  str_getitem (varName (VarY e j q)) 0 = OK "Y"%char /\
  index_at (varName (VarY e j q)) 2 = OK (e / 10) /\
  index_at (varName (VarY e j q)) 4 =
  Err (ValueError "invalid literal for int() with base 10: ','").
Proof.
  intros He. destruct (str_two_digits e He) as (c1 & c2 & Hse & Hie).
  unfold varName. rewrite Hse. rewrite <- Hie. repeat split; reflexivity.
Qed.

Lemma for_each_raises {A} (l : list A) (body : A -> io unit) (a : A) (e : exn) :
  a ∈ l -> outcome (body a) = Err e ->
  exists e', outcome (for_each l body) = Err e'.
Proof.
  induction l as [|b l IH]; intros Ha Hbody; [inversion Ha|].
  cbn [for_each]. unfold mbind, io_bind.
  destruct (outcome (body b)) as [[]|e'] eqn:Hb; cbn; [|by eexists].
  apply elem_of_cons in Ha as [-> | Ha]; [congruence|]. by apply IH.
Qed.

(** X11: when an optimal solution gives work or a qualification role to an
    employee whose index is between 10 and 99, reading the job index finds the
    comma: [int] raises ValueError, solve_problem ends with an exception and
    returns no model. *)
Theorem two_digit_employee_raises `{World} (data : ProblemData) (m : Model)
    (e j k : Z) (employee : Employee) :
  build_model data = OK m -> s_status (optimize m) = OPTIMAL ->
  10 <= e <= 99 -> staff data !! Z.to_nat e = Some employee ->
  (VarX e j k ∈ m_vars m /\ Qeq_bool (s_x (optimize m) (VarX e j k)) 1 = true) \/
  (VarY e j k ∈ m_vars m /\ Qeq_bool (s_x (optimize m) (VarY e j k)) 1 = true) ->
  report_var data (VarX e j k) 1 =
    IO [] (Err (ValueError "invalid literal for int() with base 10: ','")) /\
  report_var data (VarY e j k) 1 =
    IO [] (Err (ValueError "invalid literal for int() with base 10: ','")) /\
  exists err, outcome (solve_problem data) = Err err.
Proof.
  intros Hm Hopt He Hemp Hvar.
  assert (Htens : exists other, list_getitem (staff data) (e / 10) = OK other).
  { apply lookup_lt_Some in Hemp.
    destruct (staff data !! Z.to_nat (e / 10)) as [other|] eqn:Ho.
    - exists other. apply list_getitem_lookup; [|done]. apply Z.div_pos; lia.
    - apply lookup_ge_None in Ho. pose proof (Z.div_lt e 10). lia. }
  destruct Htens as [other Hother].
  assert (HX : report_var data (VarX e j k) 1 =
               IO [] (Err (ValueError "invalid literal for int() with base 10: ','"))).
  { unfold report_var. destruct (name_X_long_employee e j k He) as (-> & -> & ->).
    cbn -[list_getitem Z.div]. rewrite Hother. reflexivity. }
  assert (HY : report_var data (VarY e j k) 1 =
               IO [] (Err (ValueError "invalid literal for int() with base 10: ','"))).
  { unfold report_var. destruct (name_Y_long_employee e j k He) as (-> & -> & ->).
    cbn -[list_getitem Z.div]. rewrite Hother. reflexivity. }
  split; [exact HX|]. split; [exact HY|].
  rewrite (solve_problem_built data m Hm).
  assert (Hloop : exists e', outcome (for_each (m_vars m)
                    (fun v => report_var data v (s_x (optimize m) v))) = Err e').
  { destruct Hvar as [[Hin Hone] | [Hin Hone]].
    - eapply (for_each_raises _ _ (VarX e j k)); [exact Hin|].
      rewrite report_var_exact, Hone, HX. reflexivity.
    - eapply (for_each_raises _ _ (VarY e j k)); [exact Hin|].
      rewrite report_var_exact, Hone, HY. reflexivity. }
  destruct Hloop as [e' He']. exists e'. unfold report. rewrite Hopt.
  cbn. unfold mbind, io_bind. cbn. rewrite He'. reflexivity.
Qed.

Lemma two_digit_employee_raises_witness :
  exists err, outcome (@solve_problem crowd_world crowd_data) = Err err.
Proof.
  refine (proj2 (proj2 (@two_digit_employee_raises crowd_world crowd_data _ 10 0 0
                          (mkEmployee "E10" ["A"] []) _ eq_refl ltac:(lia) eq_refl _))).
  - vm_compute. reflexivity.
  - left. split; [|reflexivity]. apply list_elem_of_In. vm_compute. tauto.
Defined.

(** * Reading a problem instance *)

Lemma for_imap_snd {A B} (k : nat -> Z) (l : list A) (body : A -> result (list B)) :
  for_ (imap (fun i x => (k i, x)) l) (fun '(_, x) => body x) = for_ l body.
Proof.
  revert k. induction l as [|a l IH]; intros k; [done|].
  cbn [imap for_].
  change (imap ((fun i x => (k i, x)) ∘ S) l) with (imap (fun i x => ((k ∘ S) i, x)) l).
  by rewrite IH.
Qed.

Lemma for_enumerate {A B} (l : list A) (body : A -> result (list B)) :
  for_ (enumerate l) (fun '(_, x) => body x) = for_ l body.
Proof. apply for_imap_snd. Qed.

Lemma for_decode {A B} (enc : A -> B) (body : B -> result (list A)) (l : list A) :
  (forall a, body (enc a) = OK [a]) -> for_ (enc <$> l) body = OK l.
Proof.
  intros Hdec. induction l as [|a l IH]; [done|].
  csimpl. rewrite Hdec. cbn. rewrite IH. done.
Qed.

Lemma as_str_list_encoded (l : list string) : as_str_list (JList (JStr <$> l)) = OK l.
Proof. unfold as_str_list. cbn. by apply for_decode. Qed.

Lemma as_int_list_encoded (l : list Z) : as_int_list (JList (JInt <$> l)) = OK l.
Proof. unfold as_int_list. cbn. by apply for_decode. Qed.

Lemma as_int_dict_encoded (d : gmap string Z) :
  as_int_dict (JDict ((fun kv => (kv.1, JInt kv.2)) <$> map_to_list d)) = OK d.
Proof.
  unfold as_int_dict. cbn.
  rewrite (for_decode (fun kv : string * Z => (kv.1, JInt kv.2))).
  - cbn. by rewrite list_to_map_to_list.
  - intros [k z]. done.
Qed.

Lemma make_employee_encoded (e : Employee) : make_employee (json_of_employee e) = OK e.
Proof.
  unfold make_employee, json_of_employee. cbn -[as_str_list as_int_list].
  rewrite as_str_list_encoded. cbn -[as_int_list]. rewrite as_int_list_encoded.
  by destruct e.
Qed.

Lemma make_job_encoded (j : Job) : make_job (json_of_job j) = OK j.
Proof.
  unfold make_job, json_of_job. cbn -[as_int_dict].
  rewrite as_int_dict_encoded. by destruct j.
Qed.

Lemma file_of_size_get_data `{World} (size file : string) :
  file_of_size size = Some file ->
  get_data size =
  match load_json file with
  | OK data => IO [EOpen file] (instance_of_document data)
  | Err e => IO [EOpen file] (Err e)
  end.
Proof.
  unfold file_of_size, get_data. intros Hfile.
  assert (Hrun : forall f,
    (_ ← emit (EOpen f); data ← lift (load_json f); lift (instance_of_document data)) =
    match load_json f with
    | OK data => IO [EOpen f] (instance_of_document data)
    | Err e => IO [EOpen f] (Err e)
    end).
  { intros f. unfold mbind, io_bind. cbn [emit outcome trace lift].
    destruct (load_json f) as [data|e]; cbn [outcome trace]; [|reflexivity].
    destruct (instance_of_document data); reflexivity. }
  destruct (String.eqb size "small"); [injection Hfile as <-; apply Hrun|].
  destruct (String.eqb size "medium"); [injection Hfile as <-; apply Hrun|].
  destruct (String.eqb size "large"); [injection Hfile as <-; apply Hrun|discriminate].
Qed.

Lemma read_document (d : ProblemData) : instance_of_document (json_of_data d) = OK d.
Proof.
  unfold instance_of_document. cbn -[as_str_list].
  rewrite (for_enumerate (json_of_employee <$> staff d)
             (fun employee => e ← make_employee employee; yield e)).
  rewrite (for_decode json_of_employee)
    by (intros e; by rewrite make_employee_encoded).
  cbn -[as_str_list].
  rewrite (for_enumerate (json_of_job <$> jobs d) (fun job => j ← make_job job; yield j)).
  rewrite (for_decode json_of_job) by (intros j; by rewrite make_job_encoded).
  cbn -[as_str_list]. rewrite as_str_list_encoded. cbn. by destruct d.
Qed.

(** X12: for each known selector, when the selected file holds the JSON
    document of a problem instance, get_data opens that file, and only it, and
    returns the instance: the same horizon and qualifications, the employees
    and the jobs in the order of the file, with all their fields. *)
Theorem get_data_reads_instance `{World} (size file : string) (d : ProblemData) :
  file_of_size size = Some file ->
  load_json file = OK (json_of_data d) ->
  get_data size = IO [EOpen file] (OK d).
Proof.
  intros Hfile Hload. rewrite (file_of_size_get_data size file Hfile), Hload.
  by rewrite read_document.
Qed.

Lemma get_data_reads_instance_witness :
  @get_data (file_world (json_of_data solo_data) (solved_with idle_solution 100)) "medium" =
  IO [EOpen "data/medium_instance.json"] (OK solo_data).
Proof.
  apply (@get_data_reads_instance
           (file_world (json_of_data solo_data) (solved_with idle_solution 100))
           "medium" "data/medium_instance.json" solo_data); reflexivity.
Defined.

Lemma for_app {A B} (l1 l2 : list A) (body : A -> result (list B)) :
  for_ (l1 ++ l2) body = (ys ← for_ l1 body; zs ← for_ l2 body; OK (ys ++ zs)).
Proof.
  induction l1 as [|a l1 IH]; cbn.
  - by destruct (for_ l2 body).
  - destruct (body a) as [ys|e]; cbn; [|done]. rewrite IH.
    destruct (for_ l1 body) as [ys1|e]; cbn; [|done].
    destruct (for_ l2 body) as [ys2|e]; cbn; [|done]. by rewrite app_assoc.
Qed.

(** X14: a document without the key "staff", and a staff entry without the
    key "name", make get_data raise the KeyError of that key after the file
    is opened; the entries before the faulty one do not change that. *)
Theorem get_data_missing_key `{World} (size file : string) (items : list (string * json)) :
  file_of_size size = Some file ->
  load_json file = OK (JDict items) ->
  (assoc "staff" items = None ->
   get_data size = IO [EOpen file] (Err (KeyError (KStr "staff")))) /\
  (forall (good : list Employee) (entry : list (string * json)) (rest : list json),
     assoc "staff" items = Some (JList ((json_of_employee <$> good) ++ JDict entry :: rest)) ->
     assoc "name" entry = None ->
     get_data size = IO [EOpen file] (Err (KeyError (KStr "name")))).
Proof.
  intros Hfile Hload. rewrite (file_of_size_get_data size file Hfile), Hload. split.
  - intros Hstaff. unfold instance_of_document. cbn. rewrite Hstaff. reflexivity.
  - intros good entry rest Hstaff Hname. unfold instance_of_document. cbn.
    rewrite Hstaff. cbn.
    rewrite (for_enumerate _ (fun employee => e ← make_employee employee; yield e)).
    rewrite for_app.
    rewrite (for_decode json_of_employee)
      by (intros e; by rewrite make_employee_encoded).
    cbn. unfold make_employee. cbn. rewrite Hname. reflexivity.
Qed.

Lemma get_data_missing_key_witness :
  @get_data (file_world (JDict [("horizon", JInt 1)]) (solved_with idle_solution 100)) "small" =
  IO [EOpen "data/toy_instance.json"] (Err (KeyError (KStr "staff"))).
Proof.
  apply (proj1 (@get_data_missing_key
                  (file_world (JDict [("horizon", JInt 1)]) (solved_with idle_solution 100))
                  "small" "data/toy_instance.json" [("horizon", JInt 1)] eq_refl eq_refl)).
  reflexivity.
Defined.

(** X15: main reads the small instance and solves it: its effects are the
    opening of data/toy_instance.json followed by those of solve_problem on
    the instance read, and it fails exactly when solve_problem does; when the
    file cannot be loaded, the engine is never called. *)
Theorem main_reads_then_solves `{World} :
  (forall d, load_json "data/toy_instance.json" = OK (json_of_data d) ->
     trace main = EOpen "data/toy_instance.json" :: trace (solve_problem d) /\
     outcome main = match outcome (solve_problem d) with
                    | OK _ => OK tt
                    | Err e => Err e
                    end) /\
  (forall e, load_json "data/toy_instance.json" = Err e ->
     main = IO [EOpen "data/toy_instance.json"] (Err e)).
Proof.
  split.
  - intros d Hload. unfold main.
    rewrite (file_of_size_get_data "small" "data/toy_instance.json" eq_refl), Hload.
    rewrite read_document. unfold mbind, io_bind. cbn [outcome trace app].
    destruct (outcome (solve_problem d)) as [m|e]; cbn; rewrite ?app_nil_r; done.
  - intros e Hload. unfold main.
    rewrite (file_of_size_get_data "small" "data/toy_instance.json" eq_refl), Hload.
    reflexivity.
Qed.

Lemma main_reads_then_solves_witness :
  trace (@main (file_world (json_of_data solo_data) (solved_with idle_solution 100))) =
  EOpen "data/toy_instance.json" ::
  trace (@solve_problem (file_world (json_of_data solo_data) (solved_with idle_solution 100))
           solo_data).
Proof.
  apply (proj1 (proj1 (@main_reads_then_solves
                         (file_world (json_of_data solo_data) (solved_with idle_solution 100)))
                  solo_data eq_refl)).
Defined.

(** * Further properties of the profit calculator *)

(** X16: for a job whose gain and daily penalty are not negative, the profit
    lies between 0 and the gain on every day, never rises from one day to a
    later one (before, at or after the due date), and is 0 from the day on
    which the accumulated penalty reaches the gain. *)
Theorem get_profit_bounded_monotone (project : Job) :
  0 <= gain project -> 0 <= daily_penalty project ->
  (forall d, 0 <= get_profit project d <= gain project) /\
  (forall d d', d <= d' -> get_profit project d' <= get_profit project d) /\
  (forall d, due_date project < d ->
     gain project <= daily_penalty project * (d - due_date project) ->
     get_profit project d = 0).
Proof.
  intros Hg Hp. split; [|split].
  - intros d. by apply get_profit_le_gain.
  - intros d d' Hle. unfold get_profit.
    destruct (Z.geb_spec (due_date project) d); destruct (Z.geb_spec (due_date project) d');
      nia.
  - intros d Hlate Hpen. rewrite get_profit_late by done. lia.
Qed.

Lemma get_profit_bounded_monotone_witness :
  get_profit scenario_job 7 <= get_profit scenario_job 2 /\ get_profit scenario_job 6 = 0.
Proof.
  destruct (get_profit_bounded_monotone scenario_job ltac:(simpl; lia) ltac:(simpl; lia))
    as (_ & Hmono & Hzero).
  split.
  - apply Hmono. lia.
  - apply Hzero; simpl; lia.
Defined.

(** * The variables of the model *)

Lemma length_bind_const {A B} (l : list A) (f : A -> list B) (n : nat) :
  (forall a, length (f a) = n) -> length (l ≫= f) = (length l * n)%nat.
Proof.
  intros Hf. induction l as [|a l IH]; [done|].
  csimpl. rewrite length_app, Hf, IH. lia.
Qed.

Lemma length_keys3 n1 n2 n3 :
  length (keys3 n1 n2 n3) = (Z.to_nat n1 * (Z.to_nat n2 * Z.to_nat n3))%nat.
Proof.
  unfold keys3, range.
  rewrite (length_bind_const _ _ (Z.to_nat n2 * Z.to_nat n3)), length_seqZ; [done|].
  intros a. rewrite (length_bind_const _ _ (Z.to_nat n3)), length_seqZ; [done|].
  intros b. rewrite (length_bind_const _ _ 1), length_seqZ; [lia|done].
Qed.

Lemma length_keys2 n1 n2 : length (keys2 n1 n2) = (Z.to_nat n1 * Z.to_nat n2)%nat.
Proof.
  unfold keys2, range.
  rewrite (length_bind_const _ _ (Z.to_nat n2)), length_seqZ; [done|].
  intros a. rewrite (length_bind_const _ _ 1), length_seqZ; [lia|done].
Qed.

(** X17: the built model has one X variable for every employee, job and day,
    one Y variable for every employee, job and qualification and one Z
    variable for every job and day, and no others; a variable is in the model
    exactly when its indices are in those ranges. *)
Theorem model_variables `{World} (data : ProblemData) (m : Model) :
  build_model data = OK m ->
  length (m_vars m) =
    (length (staff data) * (length (jobs data) * Z.to_nat (horizon data)) +
     (length (staff data) * (length (jobs data) * length (d_qualifications data)) +
      length (jobs data) * Z.to_nat (horizon data)))%nat /\
  (forall e j d, VarX e j d ∈ m_vars m <->
     0 <= e < len (staff data) /\ 0 <= j < len (jobs data) /\ 0 <= d < horizon data) /\
  (forall e j q, VarY e j q ∈ m_vars m <->
     0 <= e < len (staff data) /\ 0 <= j < len (jobs data) /\
     0 <= q < len (d_qualifications data)) /\
  (forall j d, VarZ j d ∈ m_vars m <->
     0 <= j < len (jobs data) /\ 0 <= d < horizon data).
Proof.
  intros Hm.
  destruct (build_model_OK data m Hm) as (obj & c1 & c2 & c3 & c4 & c5 & c6 & c7 & c8 &
    _ & _ & _ & _ & _ & _ & _ & _ & _ & Hvars & _).
  rewrite Hvars. split; [|split; [|split]].
  - rewrite !length_app, !length_fmap, !length_keys3, length_keys2.
    unfold len. rewrite !Nat2Z.id. done.
  - intros e j d. rewrite !elem_of_app, !list_elem_of_fmap. split.
    + intros [(k & Hk & Hin) | [(k & Hk & Hin) | (k & Hk & Hin)]];
        destruct k as [[? ?] ?] || destruct k as [? ?]; try discriminate.
      injection Hk as -> -> ->. by apply elem_of_keys3.
    + intros Hr. left. exists (e, j, d). split; [done|]. by apply elem_of_keys3.
  - intros e j q. rewrite !elem_of_app, !list_elem_of_fmap. split.
    + intros [(k & Hk & Hin) | [(k & Hk & Hin) | (k & Hk & Hin)]];
        destruct k as [[? ?] ?] || destruct k as [? ?]; try discriminate.
      injection Hk as -> -> ->. by apply elem_of_keys3.
    + intros Hr. right. left. exists (e, j, q). split; [done|]. by apply elem_of_keys3.
  - intros j d. rewrite !elem_of_app, !list_elem_of_fmap. split.
    + intros [(k & Hk & Hin) | [(k & Hk & Hin) | (k & Hk & Hin)]];
        destruct k as [[? ?] ?] || destruct k as [? ?]; try discriminate.
      injection Hk as -> ->. by apply elem_of_keys2.
    + intros Hr. right. right. exists (j, d). split; [done|]. by apply elem_of_keys2.
Qed.

Lemma model_variables_witness :
  exists m, @build_model many_quals_world many_quals_data = OK m /\ length (m_vars m) = 13%nat.
Proof.
  eexists. split; [vm_compute; reflexivity|].
  refine (proj1 (@model_variables many_quals_world many_quals_data _ _)).
  vm_compute. reflexivity.
Defined.

(** * Consequences for whole solutions *)

Lemma sum_over_ones {A} (f : A -> Z) (l : list A) :
  (forall a, a ∈ l -> f a = 1) -> sum_over f l = Z.of_nat (length l).
Proof.
  induction l as [|a l IH]; intros Hf; [done|].
  unfold sum_over in *. cbn [foldr length]. rewrite (Hf a) by left.
  rewrite IH by (intros b Hb; apply Hf; by right). lia.
Qed.

(** X18: a built model with at least one job has feasible solutions only for a
    horizon of exactly one day: group 5 sets Z[j, d] to 1 on every day, and
    group 6 lets one day only be 1. *)
Theorem feasible_only_for_one_day `{World} (data : ProblemData) (m : Model) (s : Var -> Z) :
  build_model data = OK m -> feasible m s -> jobs data <> [] -> horizon data = 1.
Proof.
  intros Hm Hs Hjobs.
  destruct (jobs data !! 0%nat) as [job|] eqn:Hj.
  2:{ apply lookup_ge_None in Hj. destruct (jobs data); [done|simpl in Hj; lia]. }
  pose proof (feasible_holds _ _ _ _ Hs (realized_once_in data m 0%nat job Hm Hj)) as Hc.
  unfold holds, holdsb in Hc. cbn [rel lhs rhs] in Hc.
  rewrite eval_quicksum_refs in Hc. cbn [eval] in Hc. apply Z.eqb_eq in Hc.
  rewrite sum_over_ones in Hc.
  - unfold range in Hc. rewrite length_seqZ in Hc. lia.
  - intros d Hd%elem_of_range.
    by apply (realized_forces_completion data m s 0%nat job d).
Qed.

Lemma feasible_only_for_one_day_witness : horizon solo_data = 1.
Proof.
  refine (@feasible_only_for_one_day idle_world solo_data _ idle_solution _ _ _).
  - vm_compute. reflexivity.
  - apply feasibleb_feasible. vm_compute. reflexivity.
  - discriminate.
Defined.

(** X19: in every feasible solution an employee whose vacations cover every
    day of the horizon holds no qualification role on any job. *)
Theorem always_on_vacation_unassigned `{World} (data : ProblemData) (m : Model) (s : Var -> Z)
    (e j q : nat) (employee : Employee) (job : Job) (qualification : string) :
  build_model data = OK m -> feasible m s ->
  staff data !! e = Some employee -> jobs data !! j = Some job ->
  d_qualifications data !! q = Some qualification ->
  (forall d, 0 <= d < horizon data -> d ∈ vacations employee) ->
  s (VarY (Z.of_nat e) (Z.of_nat j) (Z.of_nat q)) = 0.
Proof.
  intros Hm Hs He Hj Hq Hvac.
  destruct (enumerate_lookup _ _ _ He) as [_ He'].
  destruct (enumerate_lookup _ _ _ Hj) as [_ Hj'].
  destruct (enumerate_lookup _ _ _ Hq) as [_ Hq'].
  destruct (feasible_binary m s _ Hs
              (VarY_in_model data m Hm _ _ _ He' Hj' Hq')) as [HY | HY]; [exact HY|exfalso].
  pose proof (feasible_holds _ _ _ _ Hs
                (assigned_works_in data m Hm e employee j job q qualification He Hj Hq)) as Hc.
  unfold holds, holdsb in Hc. cbn [rel lhs rhs] in Hc.
  rewrite eval_quicksum_refs in Hc. cbn [eval] in Hc. rewrite HY in Hc.
  destruct (sum_over_positive_elem (fun d => s (VarX (Z.of_nat e) (Z.of_nat j) d))
              (range (horizon data))) as (d & Hd%elem_of_range & HX).
  { intros d Hd%elem_of_range. apply (feasible_binary m s); [done|].
    by apply (VarX_in_model data m Hm). }
  { lia. }
  pose proof (feasible_holds _ _ _ _ Hs
                (vacation_constraint_in data m e employee j job d Hm He Hj (Hvac d Hd))) as Hzero.
  unfold holds, holdsb in Hzero. simpl in Hzero. lia.
Qed.

Lemma always_on_vacation_unassigned_witness : idle_solution (VarY 0 0 0) = 0.
Proof.
  refine (@always_on_vacation_unassigned idle_world vacation_data _ idle_solution
            0%nat 0%nat 0%nat (mkEmployee "Ann" ["A"] [0]) job_A "A" _ _ eq_refl eq_refl eq_refl _).
  - vm_compute. reflexivity.
  - apply feasibleb_feasible. vm_compute. reflexivity.
  - intros d Hd. simpl in *. assert (d = 0) as -> by lia. left.
Defined.
